(** * Asynchronous HTTP transport and response contract of azure-core

    Shallow embedding of
    [sdk/core/azure-core/azure/core/pipeline/transport/_base_async.py]:
    the helper [_iterate_response_content], the response class
    [AsyncHttpResponse] ([stream_download], [parts], [__aexit__]), its
    subclass [AsyncHttpClientTransportResponse] and the abstract sender
    [AsyncHttpTransport] ([send], [open], [close], [sleep]).

    Python code runs in a world that records what the host observes (bytes
    pulled off a connection, calls of the runtime delay, resources held); a
    call either returns a value or raises an exception.

    Two generated modules are embedded as well: the operations class
    [ConnectedEnvironmentsStoragesOperations] and the model [Site]. *)

From Stdlib Require Import List String Ascii Bool Arith Lia.
From Stdlib Require Import Strings.Byte.
From Stdlib Require Import PrimFloat.
Import ListNotations.

Set Implicit Arguments.
Local Open Scope string_scope.
Local Open Scope list_scope.

(* ================================================================== *)
(** * Python values, exceptions and effects *)
(* ================================================================== *)

Module Py.

(** Exception classes that the module raises or that pass through it.
    [UserExc name base] is a class declared elsewhere with the given base,
    so that handlers matching on a base class can be modelled. *)
Inductive exc_class : Type :=
| BaseException
| Exception
| StopIteration
| StopAsyncIteration
| RuntimeError
| NotImplementedError
| ValueError
| ResponseStopIteration
| UserExc (name : string) (base : exc_class).

(** Built-in classes are told apart by a tag. *)
Definition builtin_tag (c : exc_class) : nat :=
  match c with
  | BaseException => 0
  | Exception => 1
  | StopIteration => 2
  | StopAsyncIteration => 3
  | RuntimeError => 4
  | NotImplementedError => 5
  | ValueError => 6
  | ResponseStopIteration => 7
  | UserExc _ _ => 8
  end.

Fixpoint class_eqb (c d : exc_class) : bool :=
  match c, d with
  | UserExc n b, UserExc n' b' => String.eqb n n' && class_eqb b b'
  | UserExc _ _, _ => false
  | _, UserExc _ _ => false
  | _, _ => Nat.eqb (builtin_tag c) (builtin_tag d)
  end.

(** The classes an exception of class [c] is an instance of, nearest
    first ([class _ResponseStopIteration(Exception): pass]). *)
Fixpoint mro (c : exc_class) : list exc_class :=
  c :: match c with
       | BaseException => []
       | Exception => [BaseException]
       | StopIteration | StopAsyncIteration | RuntimeError | ValueError
       | ResponseStopIteration => [Exception; BaseException]
       | NotImplementedError => [RuntimeError; Exception; BaseException]
       | UserExc _ b => mro b
       end.

(** [issubclass c d]: [d] is [c] or one of its ancestors. *)
Definition issubclass (c d : exc_class) : bool :=
  existsb (class_eqb d) (mro c).

(** A raised exception: its class and the message it was built with. *)
Record exc : Type := mk_exc { exc_cls : exc_class; exc_msg : string }.

(** The few Python values whose identity matters here. *)
Inductive pyval : Type :=
| PyNone
| PyBool (b : bool)
| PyStr (s : string).

(** Python truthiness, as [if not v] reads it. *)
Definition truthy (v : pyval) : bool :=
  match v with
  | PyNone => false
  | PyBool b => b
  | PyStr s => negb (String.eqb s "")
  end.

Inductive outcome (A : Type) : Type :=
| Returned (a : A)
| Raised (e : exc).
Arguments Returned {A} a.
Arguments Raised {A} e.

Definition is_raised {A} (o : outcome A) : bool :=
  match o with Raised _ => true | Returned _ => false end.

End Py.
Import Py.

(* ================================================================== *)
(** * The world a call runs in *)
(* ================================================================== *)

(** A handle names an underlying resource (a socket, a session, the raw
    response of a connection). *)
Definition handle := nat.

(** What the host can observe of a run. *)
Inductive event : Type :=
| EvBodyRead (h : handle) (n : nat)   (* [n] bytes pulled off connection [h] *)
| EvRuntimeSleep (d : float)          (* [asyncio.sleep(d)] was awaited *)
| EvAcquire (h : handle)              (* a resource was created *)
| EvRelease (h : handle)              (* a resource was released *)
| EvSend (h : handle).                (* a request went out on [h] *)

(** Modelled from the spec: the life cycle of a concrete transport and
    what it keeps of its sending resource.  Concrete transports live in
    other modules of the package, not at hand; the spec gives a transport
    the states unopened, open and closed, a resource it created itself or
    was handed, and the record of which. *)
Inductive lifecycle : Type := Unopened | Opened | Closed.

Record session_state : Type := mk_session_state {
  state : lifecycle;
  session : option handle;
  session_owner : bool
}.

Record world : Type := mk_world {
  trace : list event;              (* oldest first *)
  open_resources : list handle;    (* resources currently held *)
  host_delay : float -> option exc;
    (* the runtime's delay: completes, or raises (a cancellation) *)
  sessions : list (nat * session_state)
    (* attributes of the transport objects alive, by object identity *)
}.

Definition emit (ev : event) (w : world) : world :=
  {| trace := trace w ++ [ev];
     open_resources := open_resources w;
     host_delay := host_delay w;
     sessions := sessions w |}.

(** Computations: state passing over the world, with exceptions. *)
Definition M (A : Type) : Type := world -> outcome A * world.

Definition ret {A} (a : A) : M A := fun w => (Returned a, w).
Definition raise {A} (e : exc) : M A := fun w => (Raised e, w).
Definition bind {A B} (m : M A) (k : A -> M B) : M B :=
  fun w => match m w with
           | (Returned a, w') => k a w'
           | (Raised e, w') => (Raised e, w')
           end.
Definition log (ev : event) : M unit := fun w => (Returned tt, emit ev w).

Notation "x <- m ;; k" := (bind m (fun x => k))
  (at level 61, m at next level, right associativity).
Notation "m ;;; k" := (bind m (fun _ => k))
  (at level 61, right associativity).

(** [try: m except cls: h] -- the handler runs when the raised exception is
    an instance of [cls]; any other exception passes through. *)
Definition try_except {A} (m : M A) (cls : exc_class) (h : exc -> M A) : M A :=
  fun w => match m w with
           | (Returned a, w') => (Returned a, w')
           | (Raised e, w') =>
               if issubclass (exc_cls e) cls then h e w' else (Raised e, w')
           end.

(** An [async def] call builds a coroutine and runs nothing; the body runs
    when the coroutine is awaited.  A plain [def] runs at the call. *)
Record coroutine (A : Type) : Type := Coroutine { await : M A }.
Arguments Coroutine {A} await.

(** Number of bytes pulled off connection [h] in a trace. *)
Fixpoint bytes_read (h : handle) (tr : list event) : nat :=
  match tr with
  | [] => 0
  | EvBodyRead h' n :: tr' =>
      (if Nat.eqb h h' then n else 0) + bytes_read h tr'
  | _ :: tr' => bytes_read h tr'
  end.

(* ================================================================== *)
(** * [_iterate_response_content] *)
(* ================================================================== *)

(** A Python iterator: [next(it)] returns an item and moves the iterator
    on, raises [StopIteration] when there is none left, or raises whatever
    the iterator's own code raises.  The iterator's position is the state
    [S]; nothing bounds how many items it has. *)
Record iterator (A S : Type) : Type := Iterator {
  __next__ : S -> M (A * S)
}.

(** The built-in [next(iterator)]. *)
Definition next {A S} (it : iterator A S) (s : S) : M (A * S) :=
  __next__ it s.

(** [class _ResponseStopIteration(Exception): pass] *)
Definition _ResponseStopIteration : exc := mk_exc ResponseStopIteration "".

(** [[
def _iterate_response_content(iterator):
    try:
        return next(iterator)
    except StopIteration:
        raise _ResponseStopIteration()
]] *)
Definition _iterate_response_content {A S} (it : iterator A S) (s : S)
  : M (A * S) :=
  try_except (next it s) StopIteration (fun _ => raise _ResponseStopIteration).

(** The iterator over a list, as [iter(xs)] builds it. *)
Definition list_iterator (A : Type) : iterator A (list A) :=
  Iterator (fun s => match s with
                     | [] => raise (mk_exc StopIteration "")
                     | x :: s' => ret (x, s')
                     end).

(* ================================================================== *)
(** * Response classes *)
(* ================================================================== *)

(** What can be asked of a response: attributes and methods. *)
Inductive response_op : Type :=
| OpStatusCode | OpHeaders | OpBody
| OpParts | OpStreamDownload | OpAenter | OpAexit.

Definition response_op_eqb (x y : response_op) : bool :=
  match x, y with
  | OpStatusCode, OpStatusCode | OpHeaders, OpHeaders | OpBody, OpBody
  | OpParts, OpParts | OpStreamDownload, OpStreamDownload
  | OpAenter, OpAenter | OpAexit, OpAexit => true
  | _, _ => false
  end.

(** The classes of the response hierarchy.  [C_BackendResponse name own]
    is the response class of a transport backend: a direct subclass of
    [AsyncHttpResponse] declaring the operations [own]. *)
Inductive response_class : Type :=
| C_HttpResponseBase
| C_HttpClientTransportResponse
| C_AbstractAsyncContextManager
| C_AsyncHttpResponse
| C_AsyncHttpClientTransportResponse
| C_BackendResponse (name : string) (own : list response_op).

(** Modelled from the spec: [_HttpResponseBase] and
    [_HttpClientTransportResponse] live in [_base.py], which is not part of
    the sources at hand.  The spec gives a response envelope a status code,
    a header mapping and access to its body; the docstring of
    [AsyncHttpClientTransportResponse] names [body()].
    [AbstractAsyncContextManager] is contextlib's.  The two classes of
    [_base_async.py] are as their [class] statements read. *)
Definition declares (c : response_class) : list response_op :=
  match c with
  | C_HttpResponseBase => [OpStatusCode; OpHeaders; OpBody]
  | C_HttpClientTransportResponse => [OpBody]
  | C_AbstractAsyncContextManager => [OpAenter; OpAexit]
  | C_AsyncHttpResponse => [OpStreamDownload; OpParts; OpAexit]
  | C_AsyncHttpClientTransportResponse => []
  | C_BackendResponse _ own => own
  end.

(** Method resolution order, from the bases of each [class] statement:
    [AsyncHttpResponse(_HttpResponseBase, AbstractAsyncContextManager)] and
    [AsyncHttpClientTransportResponse(_HttpClientTransportResponse,
    AsyncHttpResponse)]. *)
Definition response_mro (c : response_class) : list response_class :=
  match c with
  | C_HttpResponseBase => [C_HttpResponseBase]
  | C_HttpClientTransportResponse =>
      [C_HttpClientTransportResponse; C_HttpResponseBase]
  | C_AbstractAsyncContextManager => [C_AbstractAsyncContextManager]
  | C_AsyncHttpResponse =>
      [C_AsyncHttpResponse; C_HttpResponseBase; C_AbstractAsyncContextManager]
  | C_AsyncHttpClientTransportResponse =>
      [C_AsyncHttpClientTransportResponse; C_HttpClientTransportResponse;
       C_AsyncHttpResponse; C_HttpResponseBase; C_AbstractAsyncContextManager]
  | C_BackendResponse _ _ =>
      [c; C_AsyncHttpResponse; C_HttpResponseBase;
       C_AbstractAsyncContextManager]
  end.

(** The class whose definition of [op] an instance of [c] runs. *)
Definition resolve (c : response_class) (op : response_op)
  : option response_class :=
  find (fun k => existsb (response_op_eqb op) (declares k)) (response_mro c).

(** Is [c] [AsyncHttpResponse] or derived from it? *)
Definition is_async_response (c : response_class) : bool :=
  existsb (fun k => match k with C_AsyncHttpResponse => true | _ => false end)
          (response_mro c).

(** The operations of a response envelope that a caller uses. *)
Definition response_operations : list response_op :=
  [OpStatusCode; OpHeaders; OpBody; OpParts; OpStreamDownload].

(** Body materialisation state of an envelope. *)
Inductive materialization : Type :=
| NotYetRead
| Buffered (b : list byte)
| StreamingConsumed.

(** Modelled from the spec: the attributes of an envelope are set by
    [_HttpResponseBase.__init__] in [_base.py], not at hand.  The spec lists
    status code, header mapping, content-type and body materialisation
    state; [internal_response] is the raw network response it wraps and
    [wire_body] the bytes that connection delivers when it is read. *)
Record Response : Type := mk_Response {
  r_class : response_class;
  status_code : nat;
  headers : list (string * string);
  content_type : option string;
  internal_response : handle;
  wire_body : list byte;
  body_state : materialization
}.

(** Modelled from the spec: [_PartGenerator] is imported from
    [utils/_pipeline_transport_rest_shared_async.py], not at hand.  It is
    the lazy sequence that [parts()] returns: it keeps the parent response
    and the response type to build parts with, and has parsed nothing
    ([_parts] is [None]) until its first item is asked for. *)
Record _PartGenerator : Type := mk_PartGenerator {
  _response : Response;
  _default_http_response_type : response_class;
  _parts : option (list Response)
}.

(** A lazy sequence of byte chunks, as [stream_download] would return. *)
Record async_iterator (A : Type) : Type := AsyncIterator {
  ai_state : Type;
  ai_start : ai_state;
  __anext__ : ai_state -> coroutine (A * ai_state)
}.

(** What [__aexit__] receives besides [self]: [None, None, None] on a
    normal exit; the class of the propagating exception, the exception and
    its traceback otherwise. *)
Definition traceback := list string.

Definition aexit_method : Type :=
  option exc_class -> option exc -> option traceback -> coroutine pyval.

Module AsyncHttpResponse.

(** [[
def stream_download(self, pipeline, **kwargs) -> AsyncIteratorType[bytes]:
    raise NotImplementedError("stream_download is not implemented.")
]] *)
Definition stream_download {Pipeline : Type} (self : Response)
    (pipeline : Pipeline) (kwargs : list (string * pyval))
  : M (async_iterator (list byte)) :=
  raise (mk_exc NotImplementedError "stream_download is not implemented.").

(** [not self.content_type]: the attribute is [None] or the empty string. *)
Definition not_content_type (ct : option string) : bool :=
  match ct with
  | None => true
  | Some s => negb (truthy (PyStr s))
  end.

(** [self.content_type.startswith(p)], evaluated only on a string. *)
Definition startswith (ct : option string) (p : string) : bool :=
  match ct with
  | None => false
  | Some s => String.prefix p s
  end.

(** [[
def parts(self) -> AsyncIterator:
    if not self.content_type or not self.content_type.startswith("multipart/mixed"):
        raise ValueError("You can't get parts if the response is not multipart/mixed")
    return _PartGenerator(self, default_http_response_type=AsyncHttpClientTransportResponse)
]] *)
Definition parts (self : Response) : M _PartGenerator :=
  if not_content_type (content_type self)
     || negb (startswith (content_type self) "multipart/mixed")
  then raise (mk_exc ValueError
           "You can't get parts if the response is not multipart/mixed")
  else ret (mk_PartGenerator self C_AsyncHttpClientTransportResponse None).

(** [[
async def __aexit__(self, exc_type, exc_value, traceback):
    return None
]] *)
Definition __aexit__ (self : Response) : aexit_method :=
  fun exc_type exc_value traceback => Coroutine (ret PyNone).

End AsyncHttpResponse.

(** [self.stream_download(pipeline, **kwargs)] on an instance: the
    definition that the class of the instance resolves to runs.  The
    response classes of the backends are defined elsewhere: [backend name]
    stands for the [stream_download] of the backend class [name]. *)
Definition call_stream_download {Pipeline : Type}
    (backend : string -> Response -> Pipeline -> list (string * pyval)
               -> M (async_iterator (list byte)))
    (self : Response) (pipeline : Pipeline) (kwargs : list (string * pyval))
  : M (async_iterator (list byte)) :=
  match resolve (r_class self) OpStreamDownload with
  | Some C_AsyncHttpResponse =>
      AsyncHttpResponse.stream_download self pipeline kwargs
  | Some (C_BackendResponse name _) => backend name self pipeline kwargs
  | Some _ | None =>
      raise (mk_exc (UserExc "AttributeError" Exception) "stream_download")
  end.

(** What a part is said to share with its parent: where the parent's
    [stream_download] gives a stream, the part's does. *)
Definition streams_like_parent {Pipeline : Type}
    (backend : string -> Response -> Pipeline -> list (string * pyval)
               -> M (async_iterator (list byte)))
    (parent part : Response) : Prop :=
  forall (pipeline : Pipeline) (kwargs : list (string * pyval)) (w : world),
    is_raised (fst (call_stream_download backend parent pipeline kwargs w))
    = false ->
    is_raised (fst (call_stream_download backend part pipeline kwargs w))
    = false.

(** [async with mgr: body] as the language defines it: await
    [__aenter__]; run the body; await [__aexit__] with the exception the
    body raised, if any; re-raise that exception unless [__aexit__]
    returned something true. *)
Definition async_with {T} (aenter : coroutine T) (aexit : aexit_method)
    (body : T -> M unit) : M unit :=
  fun w =>
    match await aenter w with
    | (Raised e, w1) => (Raised e, w1)
    | (Returned v, w1) =>
        match body v w1 with
        | (Returned _, w2) =>
            match await (aexit None None None) w2 with
            | (Returned _, w3) => (Returned tt, w3)
            | (Raised e', w3) => (Raised e', w3)
            end
        | (Raised e, w2) =>
            match await (aexit (Some (exc_cls e)) (Some e) (Some [])) w2 with
            | (Returned s, w3) =>
                if truthy s then (Returned tt, w3) else (Raised e, w3)
            | (Raised e', w3) => (Raised e', w3)
            end
        end
    end.

(* ================================================================== *)
(** * The transport contract *)
(* ================================================================== *)

(** [contextlib.AbstractAsyncContextManager]: [__aenter__] returns the
    manager and does nothing else; [__aexit__] is abstract, every concrete
    class has to define it. *)
Module AbstractAsyncContextManager.

Definition __aenter__ {Self : Type} (self : Self) : coroutine Self :=
  Coroutine (ret self).

End AbstractAsyncContextManager.

(** [asyncio.sleep(delay)], the delay of the host runtime: the host sees
    the call and decides how the wait ends. *)
Module asyncio.

Definition sleep (delay : float) : coroutine pyval :=
  Coroutine (fun w =>
    (match host_delay w delay with
     | None => Returned PyNone
     | Some e => Raised e
     end, emit (EvRuntimeSleep delay) w)).

End asyncio.

(** The methods of a transport class, as an instance finds them.  [Self]
    is the reference to the instance; [Req] and [Resp] are the request and
    response types ([Generic[HTTPRequestType, AsyncHTTPResponseType]]). *)
Record transport_class (Self Req Resp : Type) : Type := mk_transport_class {
  m_send : Self -> Req -> list (string * pyval) -> coroutine Resp;
  m_open : Self -> coroutine pyval;
  m_close : Self -> coroutine pyval;
  m_sleep : Self -> float -> coroutine pyval;
  m_aenter : Self -> coroutine Self;
  m_aexit : Self -> aexit_method
}.

Module AsyncHttpTransport.

(** [[
async def sleep(self, duration: float) -> None:
    await asyncio.sleep(duration)
]] *)
Definition sleep {Self : Type} (self : Self) (duration : float)
  : coroutine pyval :=
  Coroutine (await (asyncio.sleep duration) ;;; ret PyNone).

(** A class derived from [AsyncHttpTransport] that defines what is
    abstract ([send], [open], [close], and [__aexit__] of the context
    manager) and overrides nothing: [sleep] is the one above and
    [__aenter__] is the inherited one. *)
Definition subclass {Self Req Resp : Type}
    (send : Self -> Req -> list (string * pyval) -> coroutine Resp)
    (open close : Self -> coroutine pyval)
    (aexit : Self -> aexit_method)
  : transport_class Self Req Resp :=
  {| m_send := send;
     m_open := open;
     m_close := close;
     m_sleep := sleep;
     m_aenter := AbstractAsyncContextManager.__aenter__;
     m_aexit := aexit |}.

(** [async with transport: body]. *)
Definition scope {Self Req Resp : Type} (T : transport_class Self Req Resp)
    (self : Self) (body : Self -> M unit) : M unit :=
  async_with (m_aenter T self) (m_aexit T self) body.

End AsyncHttpTransport.

(** The least a derived transport can be: the abstract methods defined,
    [__aexit__] with the body the response class of the same module gives
    it.  Its [open] and [close] show in the trace when they run; [send]
    fails with a transport error. *)
Module MinimalTransport.

Definition TransportError : exc :=
  mk_exc (UserExc "TransportError" Exception) "connection refused".

Definition send (self : handle) (request : string)
    (kwargs : list (string * pyval)) : coroutine Response :=
  Coroutine (log (EvSend self) ;;; raise TransportError).

Definition open (self : handle) : coroutine pyval :=
  Coroutine (log (EvAcquire self) ;;; ret PyNone).

Definition close (self : handle) : coroutine pyval :=
  Coroutine (log (EvRelease self) ;;; ret PyNone).

Definition __aexit__ (self : handle) : aexit_method :=
  fun exc_type exc_value traceback => Coroutine (ret PyNone).

Definition cls : transport_class handle string Response :=
  AsyncHttpTransport.subclass send open close __aexit__.

End MinimalTransport.

Definition empty_world : world :=
  {| trace := []; open_resources := [];
     host_delay := fun _ => None; sessions := [] |}.

(* ================================================================== *)
(** * A concrete transport *)
(* ================================================================== *)

Fixpoint lookup_session (id : nat) (st : list (nat * session_state))
  : option session_state :=
  match st with
  | [] => None
  | (k, v) :: st' => if Nat.eqb id k then Some v else lookup_session id st'
  end.

Fixpoint store_session (id : nat) (v : session_state)
    (st : list (nat * session_state)) : list (nat * session_state) :=
  match st with
  | [] => [(id, v)]
  | (k, v') :: st' =>
      if Nat.eqb id k then (k, v) :: st' else (k, v') :: store_session id v st'
  end.

Definition set_session (id : nat) (v : session_state) : M unit :=
  fun w => (Returned tt,
            {| trace := trace w;
               open_resources := open_resources w;
               host_delay := host_delay w;
               sessions := store_session id v (sessions w) |}).

Definition acquire (h : handle) : M unit :=
  fun w => (Returned tt,
            emit (EvAcquire h)
              {| trace := trace w;
                 open_resources := h :: open_resources w;
                 host_delay := host_delay w;
                 sessions := sessions w |}).

Definition release (h : handle) : M unit :=
  fun w => (Returned tt,
            emit (EvRelease h)
              {| trace := trace w;
                 open_resources := List.remove Nat.eq_dec h (open_resources w);
                 host_delay := host_delay w;
                 sessions := sessions w |}).

(** A handle no resource held at the moment has. *)
Definition fresh_handle : M handle :=
  fun w => (Returned (S (list_max (open_resources w))), w).

Definition get_session (id : nat) : M session_state :=
  fun w => match lookup_session id (sessions w) with
           | Some st => (Returned st, w)
           | None => (Raised (mk_exc RuntimeError "no such transport"), w)
           end.

(** Modelled from the spec: a concrete transport, whose code is in other
    modules of the package, not at hand.  From the spec: [open]
    idempotently ensures that a sending resource exists; [close]
    idempotently releases the resource the transport owns and is a no-op on
    one it was handed; unopened goes to open by [open], open to closed by
    [close], closed is terminal (re-opening fails fast, as the spec
    recommends); entering a scope calls [open], leaving it calls [close].
    [wire] is what the network answers to a request. *)
Module SessionTransport.

Definition InvalidState (msg : string) : exc := mk_exc ValueError msg.

Definition open (self : nat) : coroutine pyval :=
  Coroutine (
    st <- get_session self ;;
    match state st with
    | Opened => ret PyNone
    | Closed => raise (InvalidState "transport is closed")
    | Unopened =>
        match session st with
        | Some h =>
            set_session self (mk_session_state Opened (Some h)
                                (session_owner st)) ;;;
            ret PyNone
        | None =>
            h <- fresh_handle ;;
            acquire h ;;;
            set_session self (mk_session_state Opened (Some h) true) ;;;
            ret PyNone
        end
    end).

Definition close (self : nat) : coroutine pyval :=
  Coroutine (
    st <- get_session self ;;
    match state st with
    | Opened =>
        if session_owner st then
          match session st with
          | Some h => release h
          | None => ret tt
          end ;;;
          set_session self (mk_session_state Closed None true) ;;;
          ret PyNone
        else ret PyNone
    | Closed => ret PyNone
    | Unopened => ret PyNone
    end).

Definition send (wire : string -> outcome Response) (self : nat)
    (request : string) (kwargs : list (string * pyval)) : coroutine Response :=
  Coroutine (
    st <- get_session self ;;
    match state st, session st with
    | Opened, Some h =>
        log (EvSend h) ;;;
        (fun w => (wire request, w))
    | _, _ => raise (InvalidState "transport is not open")
    end).

Definition __aenter__ (self : nat) : coroutine nat :=
  Coroutine (await (open self) ;;; ret self).

Definition __aexit__ (self : nat) : aexit_method :=
  fun exc_type exc_value traceback =>
    Coroutine (await (close self) ;;; ret PyNone).

Definition cls (wire : string -> outcome Response)
  : transport_class nat string Response :=
  {| m_send := send wire;
     m_open := open;
     m_close := close;
     m_sleep := AsyncHttpTransport.sleep;
     m_aenter := __aenter__;
     m_aexit := __aexit__ |}.

End SessionTransport.

(* ================================================================== *)
(** * Multipart decomposition *)
(* ================================================================== *)

Definition bytes := list byte.

Definition CRLF : bytes := [x0d; x0a].

Fixpoint bytes_eqb (a b : bytes) : bool :=
  match a, b with
  | [], [] => true
  | x :: a', y :: b' => Byte.eqb x y && bytes_eqb a' b'
  | _, _ => false
  end.

(** A segment of a multipart body: its header lines and its payload. *)
Record segment : Type := mk_segment {
  seg_headers : list (string * string);
  seg_payload : bytes
}.

(** Modelled from the spec: the multipart parser that [_PartGenerator]
    relies on is in modules of the package that are not at hand
    ([utils/_pipeline_transport_rest_shared_async.py], [_base.py]).  The
    spec gives the format (standard MIME multipart: the content type
    [multipart/mixed; boundary=<token>], each part delimited by a
    [--<token>] line, the body terminated by [--<token>--]) and the
    algorithm: read the boundary from the content-type header, scan the body
    for boundary markers, for each segment parse the headers up to the empty
    line and then the payload up to the next boundary, and build a part of
    the default response type.  A body that ends without the closing
    delimiter is taken as ended there (the spec leaves the choice open), and
    a header line without a colon is skipped. *)
Module Multipart.

(** ** The format *)

Definition delimiter (boundary : string) : bytes :=
  list_byte_of_string "--" ++ list_byte_of_string boundary.

Definition close_delimiter (boundary : string) : bytes :=
  delimiter boundary ++ list_byte_of_string "--".

Definition render_header (h : string * string) : bytes :=
  list_byte_of_string (fst h) ++ list_byte_of_string ": "
  ++ list_byte_of_string (snd h).



(** The parts of a body may stand between a preamble, which ends at the
    line break before the first delimiter, and an epilogue, which starts at
    the line break after the closing delimiter; either may be missing. *)
Definition frame (preamble epilogue : option bytes) (parts : bytes) : bytes :=
  match preamble with
  | Some p => p ++ CRLF
  | None => []
  end
  ++ parts
  ++ match epilogue with
     | Some e => CRLF ++ e
     | None => []
     end.

(** ** Lines *)

(** Put [c] in front of the first line. *)
Definition cons_first (c : byte) (ls : list bytes) : list bytes :=
  match ls with
  | [] => [[c]]
  | l :: ls' => (c :: l) :: ls'
  end.

(** The lines of a body: the stretches between CR LF pairs. *)
Fixpoint split_lines (s : bytes) : list bytes :=
  match s with
  | [] => [[]]
  | c :: s' =>
      match s' with
      | c' :: s'' =>
          if Byte.eqb c x0d && Byte.eqb c' x0a
          then [] :: split_lines s''
          else cons_first c (split_lines s')
      | [] => [[c]]
      end
  end.

Fixpoint join_lines (ls : list bytes) : bytes :=
  match ls with
  | [] => []
  | l :: ls' =>
      match ls' with
      | [] => l
      | _ :: _ => l ++ CRLF ++ join_lines ls'
      end
  end.

Fixpoint has_crlf (s : bytes) : bool :=
  match s with
  | [] => false
  | c :: s' =>
      match s' with
      | c' :: _ => (Byte.eqb c x0d && Byte.eqb c' x0a) || has_crlf s'
      | [] => false
      end
  end.

(** ** Header lines *)

(** [name: value] splits at the first colon. *)
Fixpoint split_at_colon (l : bytes) : option (bytes * bytes) :=
  match l with
  | [] => None
  | c :: l' =>
      if Byte.eqb c x3a then Some ([], l')
      else match split_at_colon l' with
           | Some (n, v) => Some (c :: n, v)
           | None => None
           end
  end.

Fixpoint lstrip (l : bytes) : bytes :=
  match l with
  | c :: l' => if Byte.eqb c x20 then lstrip l' else l
  | [] => []
  end.

Definition parse_header (l : bytes) : list (string * string) :=
  match split_at_colon l with
  | Some (n, v) => [(string_of_list_byte n, string_of_list_byte (lstrip v))]
  | None => []
  end.

(** ** The scan *)

Inductive pstate : Type :=
| Preamble
| InHeaders (hs : list (string * string))
| InPayload (hs : list (string * string)) (pl : list bytes).

(** The segment under construction, if there is one. *)
Definition flush (st : pstate) : list segment :=
  match st with
  | Preamble => []
  | InHeaders hs => [mk_segment hs []]
  | InPayload hs pl => [mk_segment hs (join_lines pl)]
  end.

Fixpoint scan (d c : bytes) (st : pstate) (ls : list bytes) : list segment :=
  match ls with
  | [] => flush st
  | l :: ls' =>
      if bytes_eqb l c then flush st
      else if bytes_eqb l d then flush st ++ scan d c (InHeaders []) ls'
      else match st with
           | Preamble => scan d c Preamble ls'
           | InHeaders hs =>
               match l with
               | [] => scan d c (InPayload hs []) ls'
               | _ :: _ => scan d c (InHeaders (hs ++ parse_header l)) ls'
               end
           | InPayload hs pl => scan d c (InPayload hs (pl ++ [l])) ls'
           end
  end.

Definition parse_body (boundary : string) (body : bytes) : list segment :=
  scan (delimiter boundary) (close_delimiter boundary) Preamble
       (split_lines body).

(** ** The boundary parameter of the content type *)

Fixpoint split_params (s : string) : list string :=
  match s with
  | EmptyString => [EmptyString]
  | String c s' =>
      if Ascii.eqb c ";"%char then EmptyString :: split_params s'
      else match split_params s' with
           | p :: ps => String c p :: ps
           | [] => [String c EmptyString]
           end
  end.

Fixpoint lstrip_spaces (s : string) : string :=
  match s with
  | String c s' => if Ascii.eqb c " "%char then lstrip_spaces s' else s
  | EmptyString => EmptyString
  end.

Definition boundary_of (content_type : string) : option string :=
  match find (String.prefix "boundary=")
             (map lstrip_spaces (tl (split_params content_type))) with
  | Some p => Some (substring 9 (String.length p - 9) p)
  | None => None
  end.

(** ** Parts *)

Definition lower_ascii (c : ascii) : ascii :=
  let n := nat_of_ascii c in
  if (Nat.leb 65 n && Nat.leb n 90)%bool then ascii_of_nat (n + 32) else c.

Fixpoint lower (s : string) : string :=
  match s with
  | EmptyString => EmptyString
  | String c s' => String (lower_ascii c) (lower s')
  end.

(** Header lookup, the key compared without regard to case. *)
Fixpoint header_get (name : string) (hs : list (string * string))
  : option string :=
  match hs with
  | [] => None
  | (k, v) :: hs' =>
      if String.eqb (lower k) (lower name) then Some v
      else header_get name hs'
  end.

(** The part built for a segment: a response of the type the generator was
    given, with the segment's headers and its payload as the body, already
    in memory. *)
Definition part_of (parent : Response) (type : response_class) (s : segment)
  : Response :=
  {| r_class := type;
     status_code := status_code parent;
     headers := seg_headers s;
     content_type := header_get "Content-Type" (seg_headers s);
     internal_response := internal_response parent;
     wire_body := seg_payload s;
     body_state := Buffered (seg_payload s) |}.

(** The body of a response in memory: the buffered copy, or the bytes
    pulled off the connection. *)
Definition read_body (r : Response) : M bytes :=
  match body_state r with
  | Buffered b => ret b
  | NotYetRead =>
      log (EvBodyRead (internal_response r) (List.length (wire_body r))) ;;;
      ret (wire_body r)
  | StreamingConsumed =>
      raise (mk_exc ValueError "the body was consumed as a stream")
  end.

Definition decompose (g : _PartGenerator) : M (list Response) :=
  match content_type (_response g) with
  | None => raise (mk_exc ValueError "no content type")
  | Some ct =>
      match boundary_of ct with
      | None => raise (mk_exc ValueError "no boundary")
      | Some b =>
          body <- read_body (_response g) ;;
          ret (map (part_of (_response g) (_default_http_response_type g))
                   (parse_body b body))
      end
  end.

(** Fetching the next part: the first call reads and splits the body, the
    later ones hand out what is left; [StopAsyncIteration] ends the
    sequence. *)
Definition __anext__ (self : _PartGenerator)
  : coroutine (Response * _PartGenerator) :=
  Coroutine (
    ps <- match _parts self with
          | Some ps => ret ps
          | None => decompose self
          end ;;
    match ps with
    | [] => raise (mk_exc StopAsyncIteration "")
    | p :: ps' =>
        ret (p, mk_PartGenerator (_response self)
                  (_default_http_response_type self) (Some ps'))
    end).

End Multipart.

(** [[ [x async for x in it] ]]: ask for the next item until
    [StopAsyncIteration]; [fuel] bounds the number of requests. *)
Fixpoint async_collect {A S : Type} (anext : S -> coroutine (A * S))
    (fuel : nat) (s : S) : M (list A) :=
  match fuel with
  | O => raise (mk_exc RuntimeError "iteration bound reached")
  | S fuel' =>
      fun w =>
        match await (anext s) w with
        | (Returned (x, s'), w') =>
            match async_collect anext fuel' s' w' with
            | (Returned xs, w'') => (Returned (x :: xs), w'')
            | (Raised e, w'') => (Raised e, w'')
            end
        | (Raised e, w') =>
            if issubclass (exc_cls e) StopAsyncIteration
            then (Returned [], w')
            else (Raised e, w')
        end
  end.

(* ================================================================== *)
(** * Well-formed bodies *)
(* ================================================================== *)

Module WellFormed.
Import Multipart.

Definition starts_with_space (l : bytes) : bool :=
  match l with
  | c :: _ => Byte.eqb c x20
  | [] => false
  end.

Definition is_marker (boundary : string) (l : bytes) : bool :=
  bytes_eqb l (delimiter boundary) || bytes_eqb l (close_delimiter boundary).

(** A header renders to one line that is not a boundary marker, and splits
    back at its first colon. *)
Definition header (boundary : string) (h : string * string) : bool :=
  negb (has_crlf (render_header h))
  && negb (is_marker boundary (render_header h))
  && negb (existsb (fun c => Byte.eqb c x3a) (list_byte_of_string (fst h)))
  && negb (starts_with_space (list_byte_of_string (snd h))).

(** No line of the payload is a boundary marker. *)
Definition payload (boundary : string) (p : bytes) : bool :=
  forallb (fun l => negb (is_marker boundary l)) (split_lines p).

Definition seg (boundary : string) (s : segment) : bool :=
  forallb (header boundary) (seg_headers s)
  && payload boundary (seg_payload s).

Definition body (boundary : string) (segs : list segment) : bool :=
  negb (has_crlf (delimiter boundary))
  && negb (has_crlf (close_delimiter boundary))
  && forallb (seg boundary) segs.

(** No line of the preamble is a boundary marker. *)
Definition preamble (boundary : string) (p : option bytes) : bool :=
  match p with
  | Some p => forallb (fun l => negb (is_marker boundary l)) (split_lines p)
  | None => true
  end.

End WellFormed.




(** The value a list of headers gives a header name: that of the first
    header whose name is the same but for the case of its letters, if there
    is one. *)
Inductive header_value (name : string)
  : list (string * string) -> option string -> Prop :=
| header_value_none : header_value name [] None
| header_value_here (k v : string) (hs : list (string * string)) :
    Multipart.lower k = Multipart.lower name ->
    header_value name ((k, v) :: hs) (Some v)
| header_value_later (k v : string) (hs : list (string * string))
    (o : option string) :
    Multipart.lower k <> Multipart.lower name ->
    header_value name hs o ->
    header_value name ((k, v) :: hs) o.

(** What a part has to show of the segment it was cut from: the headers of
    the segment, its payload as the body, and as content type the value of
    the segment's [Content-Type] header. *)
Definition part_matches (p : Response) (s : segment) : Prop :=
  headers p = seg_headers s
  /\ body_state p = Buffered (seg_payload s)
  /\ header_value "Content-Type" (seg_headers s) (content_type p).

(** The parts a generator holds are of its default type. *)
Definition typed (g : _PartGenerator) : Prop :=
  match _parts g with
  | Some ps => Forall (fun p => r_class p = _default_http_response_type g) ps
  | None => True
  end.

(* ================================================================== *)
(** * Scoped acquisition, in the spec's words *)
(* ================================================================== *)

(** Acquire on enter (calls [open]), release on exit (calls [close]), on
    every exit path including thrown errors: [close] runs after the body
    whatever the body did, and the body's error, if any, comes out only
    after it. *)
Definition scoped_acquisition_spec (open close : coroutine pyval)
    (body : M unit) : M unit :=
  fun w =>
    match await open w with
    | (Raised e, w1) => (Raised e, w1)
    | (Returned _, w1) =>
        match body w1 with
        | (o, w2) =>
            match await close w2 with
            | (Returned _, w3) => (o, w3)
            | (Raised e', w3) => (Raised e', w3)
            end
        end
    end.

(** What the scoped exit of a response is said to do: leave the underlying
    resource released, complete without raising, and return nothing that
    suppresses an exception. *)
Definition aexit_releases (r : Response) (w : world) : Prop :=
  let res := await (AsyncHttpResponse.__aexit__ r None None None) w in
  ~ In (internal_response r) (open_resources (snd res))
  /\ is_raised (fst res) = false
  /\ (forall v, fst res = Returned v -> truthy v = false).

(* ================================================================== *)
(** * Sample values *)
(* ================================================================== *)

Module Sample.

Definition dquote : string := String (ascii_of_nat 34) EmptyString.
Definition crlf : string :=
  String (ascii_of_nat 13) (String (ascii_of_nat 10) EmptyString).

(** [{"a":1}] *)
Definition json_payload : bytes :=
  list_byte_of_string ("{" ++ dquote ++ "a" ++ dquote ++ ":1}").

Definition json_segment : segment :=
  mk_segment [("Content-Type", "application/json")] json_payload.

(** [--B\r\nContent-Type: application/json\r\n\r\n{"a":1}\r\n--B--] *)
Definition multipart_body : bytes :=
  list_byte_of_string
    ("--B" ++ crlf ++ "Content-Type: application/json" ++ crlf ++ crlf
     ++ "{" ++ dquote ++ "a" ++ dquote ++ ":1}" ++ crlf ++ "--B--").

Definition multipart_response : Response :=
  {| r_class := C_BackendResponse "AioHttpTransportResponse" [OpStreamDownload];
     status_code := 200;
     headers := [("Content-Type", "multipart/mixed; boundary=B")];
     content_type := Some "multipart/mixed; boundary=B";
     internal_response := 5;
     wire_body := multipart_body;
     body_state := NotYetRead |}.

(** A backend whose responses stream: its [stream_download] gives a
    stream, here one without chunks. *)
Definition empty_stream : async_iterator (list byte) :=
  @AsyncIterator (list byte) unit tt
    (fun _ => Coroutine (raise (mk_exc StopAsyncIteration ""))).

Definition streaming_backend (name : string) (self : Response)
    (pipeline : unit) (kwargs : list (string * pyval))
  : M (async_iterator (list byte)) :=
  ret empty_stream.

(** The part cut out of [multipart_response]. *)
Definition json_part : Response :=
  Multipart.part_of multipart_response C_AsyncHttpClientTransportResponse
    json_segment.

(** The same parts between a preamble and an epilogue. *)
Definition framed_response : Response :=
  {| r_class := C_AsyncHttpClientTransportResponse;
     status_code := 200;
     headers := [("Content-Type", "multipart/mixed; boundary=B")];
     content_type := Some "multipart/mixed; boundary=B";
     internal_response := 5;
     wire_body :=
       Multipart.frame (Some (list_byte_of_string "This is the preamble."))
         (Some (list_byte_of_string "This is the epilogue."))
         multipart_body;
     body_state := NotYetRead |}.

(** [GET /items] answered with [application/json]; its connection is still
    held. *)
Definition json_response : Response :=
  {| r_class := C_AsyncHttpClientTransportResponse;
     status_code := 200;
     headers := [("Content-Type", "application/json")];
     content_type := Some "application/json";
     internal_response := 5;
     wire_body := list_byte_of_string "{}";
     body_state := NotYetRead |}.

Definition held_world : world :=
  {| trace := []; open_resources := [5];
     host_delay := fun _ => None; sessions := [] |}.

(** A world with one transport object, number 1, not opened yet and going
    to create its own session. *)
Definition fresh_transport_world : world :=
  {| trace := []; open_resources := [];
     host_delay := fun _ => None;
     sessions := [(1, mk_session_state Unopened None true)] |}.

Definition refused (request : string) : outcome Response :=
  Raised MinimalTransport.TransportError.

(** The body of a scope that sends one request and drops the answer. *)
Definition send_once {Self : Type} (T : transport_class Self string Response)
    (t : Self) : M unit :=
  await (m_send T t "GET /items" []) ;;; ret tt.

(** The world after transport 1 was opened and closed again. *)
Definition closed_transport_world : world :=
  snd (await (SessionTransport.close 1)
         (snd (await (SessionTransport.open 1) fresh_transport_world))).

End Sample.

(* ================================================================== *)
(** * Python objects and dicts of the generated code *)
(* ================================================================== *)

(** The values that the generated models and operations pass around.
    [OIO h typing_io] is a stream object, such as an open file or an
    [io.BytesIO]; [typing_io] tells whether its class derives from
    [typing.IO], which the classes of the [io] module do not.  [OModel] is
    an instance of a model class; nothing here looks inside a model or an
    opaque object. *)
Inductive pyobj : Type :=
| ONone
| OBool (b : bool)
| OInt (n : nat)
| OStr (s : string)
| OBytes (b : list byte)
| OIO (h : handle) (typing_io : bool)
| ODict (d : list (string * string))
| OModel (name : string) (id : nat)
| OOpaque (id : nat).

(** Truthiness, as [x or default] reads it. *)
Definition truthy_obj (v : pyobj) : bool :=
  match v with
  | ONone => false
  | OBool b => b
  | OInt n => negb (Nat.eqb n 0)
  | OStr s => negb (String.eqb s "")
  | OBytes b => match b with [] => false | _ :: _ => true end
  | ODict d => match d with [] => false | _ :: _ => true end
  | OIO _ _ | OModel _ _ | OOpaque _ => true
  end.

(** A Python dict as the list of its items, in insertion order.  [eqb]
    tells when two keys are the same key. *)
Section Dict.

Variables K V : Type.
Variable eqb : K -> K -> bool.

(** [d.get(k)] *)
Fixpoint dict_get (k : K) (d : list (K * V)) : option V :=
  match d with
  | [] => None
  | (k', v) :: d' => if eqb k k' then Some v else dict_get k d'
  end.

(** [del d[k]] *)
Definition dict_del (k : K) (d : list (K * V)) : list (K * V) :=
  filter (fun kv => negb (eqb k (fst kv))) d.

(** [d[k] = v]: the item of [k] is replaced where it stands, or a new item
    is added at the end. *)
Fixpoint dict_set (k : K) (v : V) (d : list (K * V)) : list (K * V) :=
  match d with
  | [] => [(k, v)]
  | (k', v') :: d' =>
      if eqb k k' then (k, v) :: d' else (k', v') :: dict_set k v d'
  end.

(** [d.update(d2)] *)
Definition dict_update (d d2 : list (K * V)) : list (K * V) :=
  fold_left (fun acc kv => dict_set (fst kv) (snd kv) acc) d2 d.

(** [d.pop(k, default)]: the value and the dict that is left. *)
Definition dict_pop_default (k : K) (default : V) (d : list (K * V))
  : V * list (K * V) :=
  match dict_get k d with
  | Some v => (v, dict_del k d)
  | None => (default, d)
  end.

(** Every key occurs once. *)
Fixpoint dict_keys_unique (d : list (K * V)) : bool :=
  match d with
  | [] => true
  | (k, _) :: d' =>
      match dict_get k d' with
      | Some _ => false
      | None => dict_keys_unique d'
      end
  end.

End Dict.

(** Keys with the same [key.lower()] are the same key; [lower] is
    [str.lower], which the interpreter gives. *)
Definition ci_eqb (lower : string -> string) (a b : string) : bool :=
  String.eqb (lower a) (lower b).

(** [azure.core.utils.case_insensitive_dict(d)]: the mapping with the
    items of [d], kept under [key.lower()]; a later item replaces an
    earlier one with the same key. *)
Definition case_insensitive_dict {V : Type} (lower : string -> string)
    (d : list (string * V)) : list (string * V) :=
  dict_update (ci_eqb lower) [] d.

(* ================================================================== *)
(** * [ConnectedEnvironmentsStoragesOperations] *)
(* ================================================================== *)

(** The class of
    [azure/mgmt/appcontainers/aio/operations/_connected_environments_storages_operations.py].
    Each of its four operations is the body of the method as written,
    under the decorator [distributed_trace_async].  What the operations
    call but do not define -- the request builders, the pipeline, the
    serializers, [map_error] -- is taken as given, whatever it does. *)

Module Storages.

Definition KeyError (key : string) : exc :=
  mk_exc (UserExc "KeyError" (UserExc "LookupError" Exception)) key.

Definition TypeError (msg : string) : exc :=
  mk_exc (UserExc "TypeError" Exception) msg.

(** ** The constructor *)

(** The four attributes [__init__] sets.  The constructor does not look
    at what it is given, so the objects are of any type [V]. *)
Record attributes (V : Type) : Type := mk_attributes {
  _client : V;
  _config : V;
  _serialize : V;
  _deserialize : V
}.

(** [input_args.pop(0) if input_args else kwargs.pop(key)]: the value,
    and what is left of the positional and the keyword arguments.
    [kwargs.pop(key)] raises [KeyError] when the key is missing. *)
Definition pop_argument {V : Type} (key : string) (input_args : list V)
    (kwargs : list (string * V))
  : outcome (V * (list V * list (string * V))) :=
  match input_args with
  | a :: input_args' => Returned (a, (input_args', kwargs))
  | [] =>
      match dict_get String.eqb key kwargs with
      | Some v => Returned (v, ([], dict_del String.eqb key kwargs))
      | None => Raised (KeyError key)
      end
  end.

(** [[
def __init__(self, *args, **kwargs) -> None:
    input_args = list(args)
    self._client = input_args.pop(0) if input_args else kwargs.pop("client")
    self._config = input_args.pop(0) if input_args else kwargs.pop("config")
    self._serialize = input_args.pop(0) if input_args else kwargs.pop("serializer")
    self._deserialize = input_args.pop(0) if input_args else kwargs.pop("deserializer")
]] *)
Definition __init__ {V : Type} (args : list V) (kwargs : list (string * V))
  : outcome (attributes V) :=
  match pop_argument "client" args kwargs with
  | Raised e => Raised e
  | Returned (client, (a1, k1)) =>
  match pop_argument "config" a1 k1 with
  | Raised e => Raised e
  | Returned (config, (a2, k2)) =>
  match pop_argument "serializer" a2 k2 with
  | Raised e => Raised e
  | Returned (serializer, (a3, k3)) =>
  match pop_argument "deserializer" a3 k3 with
  | Raised e => Raised e
  | Returned (deserializer, _) =>
      Returned (mk_attributes client config serializer deserializer)
  end end end end.

(** What the constructor is to find for the slot at position [i] with
    keyword [key]: the positional argument if there is one, else the
    keyword argument. *)
Definition argument_for {V : Type} (i : nat) (key : string) (args : list V)
    (kwargs : list (string * V)) : option V :=
  match nth_error args i with
  | Some a => Some a
  | None => dict_get String.eqb key kwargs
  end.

(** ** What the operations work with *)

(** An [azure.core.rest.HttpRequest]: the operations read and set its
    [url] and hand the rest on. *)
Record HttpRequest : Type := mk_HttpRequest {
  url : string;
  request_data : pyobj
}.

Record PipelineResponse : Type := mk_PipelineResponse {
  http_response : Response;
  pipeline_context : pyobj
}.

(** [cls]: called with the pipeline response, the deserialized value and
    an empty dict of response headers. *)
Definition callback : Type :=
  PipelineResponse -> pyobj -> list (string * pyobj) -> M pyobj.

(** [**kwargs], by key: the keywords the operations take out, each absent
    or present with a value of the kind its use asks for ([Some None] is an
    explicit [None]), and the other keywords, which go on to the
    pipeline. *)
Record keywords : Type := mk_keywords {
  kw_error_map : option (option (list (nat * exc_class)));
  kw_headers : option (option (list (string * string)));
  kw_params : option (option (list (string * string)));
  kw_api_version : option pyobj;
  kw_content_type : option pyobj;
  kw_cls : option (option callback);
  kw_others : list (string * pyobj)
}.

(** The keyword arguments of the request builders. *)
Record build_args : Type := mk_build_args {
  resource_group_name : string;
  connected_environment_name : string;
  storage_name : option string;
  subscription_id_arg : pyobj;
  api_version_arg : pyobj;
  content_type_arg : option pyobj;
  json : option pyobj;
  content : option pyobj;
  template_url : string;
  headers_arg : list (string * string);
  params_arg : list (string * string)
}.

(** [self._config] *)
Record Config : Type := mk_Config {
  api_version : pyobj;
  subscription_id : pyobj
}.

(** [self._client._pipeline]: its [run], and the name under which the
    interpreter reports a bad call of it. *)
Record Pipeline : Type := mk_Pipeline {
  run : HttpRequest -> list (string * pyobj) -> coroutine PipelineResponse;
  run_name : string
}.

(** [self._client] *)
Record Client : Type := mk_Client {
  format_url : string -> M string;
  _pipeline : Pipeline
}.

(** [self._serialize] *)
Record Serializer : Type := mk_Serializer {
  body : pyobj -> string -> M pyobj
}.

(** [self._deserialize]: the object is called, and has
    [failsafe_deserialize]. *)
Record Deserializer : Type := mk_Deserializer {
  __call__ : string -> PipelineResponse -> M pyobj;
  failsafe_deserialize : string -> PipelineResponse -> M pyobj
}.

Record operations : Type := mk_operations {
  client : Client;
  config : Config;
  serializer : Serializer;
  deserializer : Deserializer
}.

(** What the module imports from the rest of the package: the request
    builders, [_convert_request], [map_error], and the message that
    [HttpResponseError] builds for a response and an error model.  With
    them, what the interpreter and the settings of azure-core give:
    [str.lower], and [settings.tracing_implementation()], which is [None]
    unless a tracing plugin was set up and otherwise stands for the span
    it puts around a call, given the parent span. *)
Record imports : Type := mk_imports {
  str_lower : string -> string;
  tracing_implementation : option (pyobj -> M pyobj -> M pyobj);
  build_list_request : build_args -> M HttpRequest;
  build_get_request : build_args -> M HttpRequest;
  build_create_or_update_request : build_args -> M HttpRequest;
  build_delete_request : build_args -> M HttpRequest;
  _convert_request : HttpRequest -> M HttpRequest;
  map_error : nat -> Response -> list (nat * exc_class) -> M unit;
  error_message : Response -> pyobj -> string
}.

(** The exception classes of [azure.core.exceptions] that the module
    names. *)
Definition HttpResponseError_class : exc_class :=
  UserExc "HttpResponseError" (UserExc "AzureError" Exception).
Definition ClientAuthenticationError : exc_class :=
  UserExc "ClientAuthenticationError" HttpResponseError_class.
Definition ResourceNotFoundError : exc_class :=
  UserExc "ResourceNotFoundError" HttpResponseError_class.
Definition ResourceExistsError : exc_class :=
  UserExc "ResourceExistsError" HttpResponseError_class.
Definition ResourceNotModifiedError : exc_class :=
  UserExc "ResourceNotModifiedError" HttpResponseError_class.

(** [HttpResponseError(response=response, model=error,
    error_format=ARMErrorFormat)] *)
Definition HttpResponseError (I : imports) (response : Response)
    (model : pyobj) : exc :=
  mk_exc HttpResponseError_class (error_message I response model).

(** ** The lines the four operations share *)

(** [kwargs.pop(key, {}) or {}] *)
Definition pop_or_empty {A : Type} (v : option (option (list A))) : list A :=
  match v with
  | Some (Some d) => d
  | Some None | None => []
  end.

(** [[
error_map = {
    401: ClientAuthenticationError,
    404: ResourceNotFoundError,
    409: ResourceExistsError,
    304: ResourceNotModifiedError,
}
error_map.update(kwargs.pop("error_map", {}) or {})
]] *)
Definition error_map_of (kwargs : keywords) : list (nat * exc_class) :=
  dict_update Nat.eqb
    [(401, ClientAuthenticationError);
     (404, ResourceNotFoundError);
     (409, ResourceExistsError);
     (304, ResourceNotModifiedError)]
    (pop_or_empty (kw_error_map kwargs)).

(** [[
_params = case_insensitive_dict(kwargs.pop("params", {}) or {})
api_version = kwargs.pop("api_version", _params.pop("api-version", self._config.api_version))
]]
    The default of the outer [pop] is evaluated first, whatever [kwargs]
    holds: the result is the version and [_params] after its [pop]. *)
Definition pop_api_version (I : imports) (self : operations)
    (kwargs : keywords) : pyobj * list (string * string) :=
  let _params :=
    case_insensitive_dict (str_lower I) (pop_or_empty (kw_params kwargs)) in
  let default :=
    match dict_get (ci_eqb (str_lower I)) "api-version" _params with
    | Some v => OStr v
    | None => api_version (config self)
    end in
  (match kw_api_version kwargs with
   | Some v => v
   | None => default
   end,
   dict_del (ci_eqb (str_lower I)) "api-version" _params).

(** [[
_headers = case_insensitive_dict(kwargs.pop("headers", {}) or {})
content_type = kwargs.pop("content_type", _headers.pop("Content-Type", None))
content_type = content_type or "application/json"
]] *)
Definition pop_content_type (I : imports) (kwargs : keywords)
  : pyobj * list (string * string) :=
  let _headers :=
    case_insensitive_dict (str_lower I) (pop_or_empty (kw_headers kwargs)) in
  let default :=
    match dict_get (ci_eqb (str_lower I)) "Content-Type" _headers with
    | Some v => OStr v
    | None => ONone
    end in
  let content_type :=
    match kw_content_type kwargs with
    | Some v => v
    | None => default
    end in
  (if truthy_obj content_type then content_type else OStr "application/json",
   dict_del (ci_eqb (str_lower I)) "Content-Type" _headers).

(** [**kwargs] as left for the pipeline by an operation that does not take
    [content_type] out. *)
Definition remaining (kwargs : keywords) : list (string * pyobj) :=
  match kw_content_type kwargs with
  | Some v => kw_others kwargs ++ [("content_type", v)]
  | None => kw_others kwargs
  end.

(** The message of the [TypeError] for a keyword given twice: the
    interpreter puts the name of the function called in front. *)
Definition multiple_values (callee keyword : string) : string :=
  callee ++ "() got multiple values for keyword argument '" ++ keyword ++ "'".

(** [await self._client._pipeline.run(request, stream=_stream, **kwargs)]:
    a call that gets [stream] twice is a [TypeError], and the pipeline does
    not run. *)
Definition run_pipeline (self : operations) (request : HttpRequest)
    (_stream : bool) (kwargs : list (string * pyobj)) : M PipelineResponse :=
  match dict_get String.eqb "stream" kwargs with
  | Some _ =>
      raise (TypeError
               (multiple_values (run_name (_pipeline (client self))) "stream"))
  | None =>
      await (run (_pipeline (client self)) request
               (("stream", OBool _stream) :: kwargs))
  end.

(** [[
request = _convert_request(request)
request.url = self._client.format_url(request.url)
]] *)
Definition finish_request (I : imports) (self : operations)
    (request : HttpRequest) : M HttpRequest :=
  request <- _convert_request I request ;;
  u <- format_url (client self) (url request) ;;
  ret (mk_HttpRequest u (request_data request)).

(** [response.status_code not in accepted] *)
Definition not_in (status : nat) (accepted : list nat) : bool :=
  negb (existsb (Nat.eqb status) accepted).

(** [[
map_error(status_code=response.status_code, response=response, error_map=error_map)
error = self._deserialize.failsafe_deserialize(_models.DefaultErrorResponse, pipeline_response)
raise HttpResponseError(response=response, model=error, error_format=ARMErrorFormat)
]] *)
Definition fail {A : Type} (I : imports) (self : operations)
    (pipeline_response : PipelineResponse)
    (error_map : list (nat * exc_class)) : M A :=
  let response := http_response pipeline_response in
  map_error I (status_code response) response error_map ;;;
  error <- failsafe_deserialize (deserializer self) "DefaultErrorResponse"
             pipeline_response ;;
  raise (HttpResponseError I response error).

(** [[
if cls:
    return cls(pipeline_response, deserialized, {})
return deserialized
]] *)
Definition return_through (cls : option (option callback))
    (pipeline_response : PipelineResponse) (deserialized : pyobj) : M pyobj :=
  match cls with
  | Some (Some f) => f pipeline_response deserialized []
  | Some None | None => ret deserialized
  end.

(** ** The decorator *)

(** The keywords without [merge_span] and [parent_span]. *)
Definition without_tracing (kwargs : keywords) : keywords :=
  {| kw_error_map := kw_error_map kwargs;
     kw_headers := kw_headers kwargs;
     kw_params := kw_params kwargs;
     kw_api_version := kw_api_version kwargs;
     kw_content_type := kw_content_type kwargs;
     kw_cls := kw_cls kwargs;
     kw_others :=
       dict_del String.eqb "parent_span"
         (dict_del String.eqb "merge_span" (kw_others kwargs)) |}.

(** [kwargs.pop("merge_span", False)] and [kwargs.pop("parent_span",
    None)] *)
Definition merge_span (kwargs : keywords) : pyobj :=
  match dict_get String.eqb "merge_span" (kw_others kwargs) with
  | Some v => v
  | None => OBool false
  end.

Definition parent_span (kwargs : keywords) : pyobj :=
  match dict_get String.eqb "parent_span" (kw_others kwargs) with
  | Some v => v
  | None => ONone
  end.

(** [@distributed_trace_async], which wraps each of the four
    operations.  The decorator is azure-core's
    ([azure.core.tracing.decorator_async]).  Its wrapper first takes two
    keywords of its own out of [kwargs],
    [[
merge_span = kwargs.pop("merge_span", False)
passed_in_parent = kwargs.pop("parent_span", None)
]]
    so neither reaches the method.  It then asks for
    [settings.tracing_implementation()].  Without one, and also when
    [merge_span and not passed_in_parent], it awaits the method on what is
    left of the arguments and returns what the method returns.  Otherwise
    it awaits the method in the same way, inside a span that the tracing
    implementation opens under the parent passed in; what the span does
    around the call is up to the implementation, and is taken as given. *)
Definition distributed_trace_async (I : imports)
    (func : keywords -> coroutine pyobj) (kwargs : keywords)
  : coroutine pyobj :=
  Coroutine (
    let merge_span := merge_span kwargs in
    let passed_in_parent := parent_span kwargs in
    let kwargs := without_tracing kwargs in
    match tracing_implementation I with
    | None => await (func kwargs)
    | Some span_impl_type =>
        if truthy_obj merge_span && negb (truthy_obj passed_in_parent)
        then await (func kwargs)
        else span_impl_type passed_in_parent (await (func kwargs))
    end).

(** Does a call with these keywords run inside a span? *)
Definition opens_span (I : imports) (kwargs : keywords) : bool :=
  match tracing_implementation I with
  | None => false
  | Some _ =>
      negb (truthy_obj (merge_span kwargs)
            && negb (truthy_obj (parent_span kwargs)))
  end.

(** ** The operations *)

Definition list_url : string :=
  "/subscriptions/{subscriptionId}/resourceGroups/{resourceGroupName}/providers/Microsoft.App/connectedEnvironments/{connectedEnvironmentName}/storages".

Definition storage_url : string :=
  "/subscriptions/{subscriptionId}/resourceGroups/{resourceGroupName}/providers/Microsoft.App/connectedEnvironments/{connectedEnvironmentName}/storages/{storageName}".

(** The request of [list]: built, converted, its URL formatted. *)
Definition list_request (I : imports) (self : operations)
    (resource_group_name connected_environment_name : string)
    (kwargs : keywords) : M HttpRequest :=
  let _headers := pop_or_empty (kw_headers kwargs) in
  let '(api_version, _params) := pop_api_version I self kwargs in
  request <- build_list_request I
    {| resource_group_name := resource_group_name;
       connected_environment_name := connected_environment_name;
       storage_name := None;
       subscription_id_arg := subscription_id (config self);
       api_version_arg := api_version;
       content_type_arg := None;
       json := None;
       content := None;
       template_url := list_url;
       headers_arg := _headers;
       params_arg := _params |} ;;
  finish_request I self request.

(** The body of [list(self, resource_group_name,
    connected_environment_name, **kwargs)]. *)
Definition list_body (I : imports) (self : operations)
    (resource_group_name connected_environment_name : string)
    (kwargs : keywords) : coroutine pyobj :=
  Coroutine (
    let error_map := error_map_of kwargs in
    let cls := kw_cls kwargs in
    request <- list_request I self resource_group_name
                 connected_environment_name kwargs ;;
    pipeline_response <- run_pipeline self request false (remaining kwargs) ;;
    let response := http_response pipeline_response in
    if not_in (status_code response) [200]
    then fail I self pipeline_response error_map
    else
      deserialized <- __call__ (deserializer self)
                        "ConnectedEnvironmentStoragesCollection"
                        pipeline_response ;;
      return_through cls pipeline_response deserialized).

(** [[
@distributed_trace_async
async def list(self, resource_group_name, connected_environment_name, **kwargs):
]] *)
Definition list (I : imports) (self : operations)
    (resource_group_name connected_environment_name : string)
    (kwargs : keywords) : coroutine pyobj :=
  distributed_trace_async I
    (list_body I self resource_group_name connected_environment_name) kwargs.

(** The request of [get]. *)
Definition get_request (I : imports) (self : operations)
    (resource_group_name connected_environment_name storage_name : string)
    (kwargs : keywords) : M HttpRequest :=
  let _headers := pop_or_empty (kw_headers kwargs) in
  let '(api_version, _params) := pop_api_version I self kwargs in
  request <- build_get_request I
    {| resource_group_name := resource_group_name;
       connected_environment_name := connected_environment_name;
       storage_name := Some storage_name;
       subscription_id_arg := subscription_id (config self);
       api_version_arg := api_version;
       content_type_arg := None;
       json := None;
       content := None;
       template_url := storage_url;
       headers_arg := _headers;
       params_arg := _params |} ;;
  finish_request I self request.

(** The body of [get(self, resource_group_name,
    connected_environment_name, storage_name, **kwargs)]. *)
Definition get_body (I : imports) (self : operations)
    (resource_group_name connected_environment_name storage_name : string)
    (kwargs : keywords) : coroutine pyobj :=
  Coroutine (
    let error_map := error_map_of kwargs in
    let cls := kw_cls kwargs in
    request <- get_request I self resource_group_name
                 connected_environment_name storage_name kwargs ;;
    pipeline_response <- run_pipeline self request false (remaining kwargs) ;;
    let response := http_response pipeline_response in
    if not_in (status_code response) [200]
    then fail I self pipeline_response error_map
    else
      deserialized <- __call__ (deserializer self)
                        "ConnectedEnvironmentStorage" pipeline_response ;;
      return_through cls pipeline_response deserialized).

(** [[
@distributed_trace_async
async def get(self, resource_group_name, connected_environment_name, storage_name, **kwargs):
]] *)
Definition get (I : imports) (self : operations)
    (resource_group_name connected_environment_name storage_name : string)
    (kwargs : keywords) : coroutine pyobj :=
  distributed_trace_async I
    (get_body I self resource_group_name connected_environment_name
       storage_name) kwargs.

(** [isinstance(storage_envelope, (IO, bytes))], [IO] being
    [typing.IO]. *)
Definition is_io_or_bytes (v : pyobj) : bool :=
  match v with
  | OBytes _ => true
  | OIO _ typing_io => typing_io
  | _ => false
  end.

(** [[
_json = None
_content = None
if isinstance(storage_envelope, (IO, bytes)):
    _content = storage_envelope
else:
    _json = self._serialize.body(storage_envelope, "ConnectedEnvironmentStorage")
]]
    The result is [(_json, _content)]. *)
Definition body_of (self : operations) (storage_envelope : pyobj)
  : M (option pyobj * option pyobj) :=
  if is_io_or_bytes storage_envelope
  then ret (None, Some storage_envelope)
  else
    _json <- body (serializer self) storage_envelope
               "ConnectedEnvironmentStorage" ;;
    ret (Some _json, None).

(** The request of [create_or_update]. *)
Definition create_or_update_request (I : imports) (self : operations)
    (resource_group_name connected_environment_name storage_name : string)
    (storage_envelope : pyobj) (kwargs : keywords) : M HttpRequest :=
  let '(api_version, _params) := pop_api_version I self kwargs in
  let '(content_type, _headers) := pop_content_type I kwargs in
  body_arguments <- body_of self storage_envelope ;;
  request <- build_create_or_update_request I
    {| resource_group_name := resource_group_name;
       connected_environment_name := connected_environment_name;
       storage_name := Some storage_name;
       subscription_id_arg := subscription_id (config self);
       api_version_arg := api_version;
       content_type_arg := Some content_type;
       json := fst body_arguments;
       content := snd body_arguments;
       template_url := storage_url;
       headers_arg := _headers;
       params_arg := _params |} ;;
  finish_request I self request.

(** The body of [create_or_update(self, resource_group_name,
    connected_environment_name, storage_name, storage_envelope,
    **kwargs)]. *)
Definition create_or_update_body (I : imports) (self : operations)
    (resource_group_name connected_environment_name storage_name : string)
    (storage_envelope : pyobj) (kwargs : keywords) : coroutine pyobj :=
  Coroutine (
    let error_map := error_map_of kwargs in
    let cls := kw_cls kwargs in
    request <- create_or_update_request I self resource_group_name
                 connected_environment_name storage_name storage_envelope
                 kwargs ;;
    pipeline_response <- run_pipeline self request false (kw_others kwargs) ;;
    let response := http_response pipeline_response in
    if not_in (status_code response) [200]
    then fail I self pipeline_response error_map
    else
      deserialized <- __call__ (deserializer self)
                        "ConnectedEnvironmentStorage" pipeline_response ;;
      return_through cls pipeline_response deserialized).

(** [[
@distributed_trace_async
async def create_or_update(self, resource_group_name, connected_environment_name, storage_name, storage_envelope, **kwargs):
]] *)
Definition create_or_update (I : imports) (self : operations)
    (resource_group_name connected_environment_name storage_name : string)
    (storage_envelope : pyobj) (kwargs : keywords) : coroutine pyobj :=
  distributed_trace_async I
    (create_or_update_body I self resource_group_name
       connected_environment_name storage_name storage_envelope) kwargs.

(** The request of [delete]. *)
Definition delete_request (I : imports) (self : operations)
    (resource_group_name connected_environment_name storage_name : string)
    (kwargs : keywords) : M HttpRequest :=
  let _headers := pop_or_empty (kw_headers kwargs) in
  let '(api_version, _params) := pop_api_version I self kwargs in
  request <- build_delete_request I
    {| resource_group_name := resource_group_name;
       connected_environment_name := connected_environment_name;
       storage_name := Some storage_name;
       subscription_id_arg := subscription_id (config self);
       api_version_arg := api_version;
       content_type_arg := None;
       json := None;
       content := None;
       template_url := storage_url;
       headers_arg := _headers;
       params_arg := _params |} ;;
  finish_request I self request.

(** The body of [delete(self, resource_group_name,
    connected_environment_name, storage_name, **kwargs)]. *)
Definition delete_body (I : imports) (self : operations)
    (resource_group_name connected_environment_name storage_name : string)
    (kwargs : keywords) : coroutine pyobj :=
  Coroutine (
    let error_map := error_map_of kwargs in
    let cls := kw_cls kwargs in
    request <- delete_request I self resource_group_name
                 connected_environment_name storage_name kwargs ;;
    pipeline_response <- run_pipeline self request false (remaining kwargs) ;;
    let response := http_response pipeline_response in
    if not_in (status_code response) [200; 204]
    then fail I self pipeline_response error_map
    else
      match cls with
      | Some (Some f) => f pipeline_response ONone []
      | Some None | None => ret ONone
      end).

(** [[
@distributed_trace_async
async def delete(self, resource_group_name, connected_environment_name, storage_name, **kwargs):
]] *)
Definition delete (I : imports) (self : operations)
    (resource_group_name connected_environment_name storage_name : string)
    (kwargs : keywords) : coroutine pyobj :=
  distributed_trace_async I
    (delete_body I self resource_group_name connected_environment_name
       storage_name) kwargs.

End Storages.

(* ================================================================== *)
(** * The [Site] model *)
(* ================================================================== *)

Module Site.

(** [_validation]: for each attribute it names, its flags. *)
Definition _validation : list (string * list (string * bool)) :=
  [("id", [("readonly", true)]);
   ("location", [("required", true)]);
   ("state", [("readonly", true)]);
   ("host_names", [("readonly", true)]);
   ("repository_site_name", [("readonly", true)]);
   ("usage_state", [("readonly", true)]);
   ("enabled_host_names", [("readonly", true)]);
   ("availability_state", [("readonly", true)]);
   ("last_modified_time_utc", [("readonly", true)]);
   ("traffic_manager_host_names", [("readonly", true)]);
   ("premium_app_deployed", [("readonly", true)]);
   ("target_swap_slot", [("readonly", true)]);
   ("outbound_ip_addresses", [("readonly", true)]);
   ("suspended_till", [("readonly", true)]);
   ("max_number_of_workers", [("readonly", true)]);
   ("resource_group", [("readonly", true)]);
   ("is_default_container", [("readonly", true)]);
   ("default_host_name", [("readonly", true)]);
   ("slot_swap_status", [("readonly", true)])].

(** [_attribute_map]: for each attribute, its key on the wire and its
    type. *)
Definition _attribute_map : list (string * (string * string)) :=
  [("id", ("id", "str"));
   ("name", ("name", "str"));
   ("kind", ("kind", "str"));
   ("location", ("location", "str"));
   ("type", ("type", "str"));
   ("tags", ("tags", "{str}"));
   ("state", ("properties.state", "str"));
   ("host_names", ("properties.hostNames", "[str]"));
   ("repository_site_name", ("properties.repositorySiteName", "str"));
   ("usage_state", ("properties.usageState", "UsageState"));
   ("enabled", ("properties.enabled", "bool"));
   ("enabled_host_names", ("properties.enabledHostNames", "[str]"));
   ("availability_state", ("properties.availabilityState", "SiteAvailabilityState"));
   ("host_name_ssl_states", ("properties.hostNameSslStates", "[HostNameSslState]"));
   ("server_farm_id", ("properties.serverFarmId", "str"));
   ("reserved", ("properties.reserved", "bool"));
   ("last_modified_time_utc", ("properties.lastModifiedTimeUtc", "iso-8601"));
   ("site_config", ("properties.siteConfig", "SiteConfig"));
   ("traffic_manager_host_names", ("properties.trafficManagerHostNames", "[str]"));
   ("premium_app_deployed", ("properties.premiumAppDeployed", "bool"));
   ("scm_site_also_stopped", ("properties.scmSiteAlsoStopped", "bool"));
   ("target_swap_slot", ("properties.targetSwapSlot", "str"));
   ("hosting_environment_profile", ("properties.hostingEnvironmentProfile", "HostingEnvironmentProfile"));
   ("micro_service", ("properties.microService", "str"));
   ("gateway_site_name", ("properties.gatewaySiteName", "str"));
   ("client_affinity_enabled", ("properties.clientAffinityEnabled", "bool"));
   ("client_cert_enabled", ("properties.clientCertEnabled", "bool"));
   ("host_names_disabled", ("properties.hostNamesDisabled", "bool"));
   ("outbound_ip_addresses", ("properties.outboundIpAddresses", "str"));
   ("container_size", ("properties.containerSize", "int"));
   ("daily_memory_time_quota", ("properties.dailyMemoryTimeQuota", "int"));
   ("suspended_till", ("properties.suspendedTill", "iso-8601"));
   ("max_number_of_workers", ("properties.maxNumberOfWorkers", "int"));
   ("cloning_info", ("properties.cloningInfo", "CloningInfo"));
   ("resource_group", ("properties.resourceGroup", "str"));
   ("is_default_container", ("properties.isDefaultContainer", "bool"));
   ("default_host_name", ("properties.defaultHostName", "str"));
   ("slot_swap_status", ("properties.slotSwapStatus", "SlotSwapStatus"))].

(** The arguments of the constructor: [location] has to be given, for the
    others [None] stands for an argument left out. *)
Record arguments : Type := mk_arguments {
  location : pyobj;
  name : option pyobj;
  kind : option pyobj;
  type : option pyobj;
  tags : option pyobj;
  enabled : option pyobj;
  host_name_ssl_states : option pyobj;
  server_farm_id : option pyobj;
  reserved : option pyobj;
  site_config : option pyobj;
  scm_site_also_stopped : option pyobj;
  hosting_environment_profile : option pyobj;
  micro_service : option pyobj;
  gateway_site_name : option pyobj;
  client_affinity_enabled : option pyobj;
  client_cert_enabled : option pyobj;
  host_names_disabled : option pyobj;
  container_size : option pyobj;
  daily_memory_time_quota : option pyobj;
  cloning_info : option pyobj
}.

(** The value of a parameter: what was passed, or its default. *)
Definition given (default : pyobj) (a : option pyobj) : pyobj :=
  match a with
  | Some v => v
  | None => default
  end.

(** The statements [self.<attribute> = <value>] of [__init__], in
    order. *)
Definition assignments (a : arguments) : list (string * pyobj) :=
  [("state", ONone);
   ("host_names", ONone);
   ("repository_site_name", ONone);
   ("usage_state", ONone);
   ("enabled", given ONone (enabled a));
   ("enabled_host_names", ONone);
   ("availability_state", ONone);
   ("host_name_ssl_states", given ONone (host_name_ssl_states a));
   ("server_farm_id", given ONone (server_farm_id a));
   ("reserved", given (OBool false) (reserved a));
   ("last_modified_time_utc", ONone);
   ("site_config", given ONone (site_config a));
   ("traffic_manager_host_names", ONone);
   ("premium_app_deployed", ONone);
   ("scm_site_also_stopped", given (OBool false) (scm_site_also_stopped a));
   ("target_swap_slot", ONone);
   ("hosting_environment_profile", given ONone (hosting_environment_profile a));
   ("micro_service", given (OStr "false") (micro_service a));
   ("gateway_site_name", given ONone (gateway_site_name a));
   ("client_affinity_enabled", given ONone (client_affinity_enabled a));
   ("client_cert_enabled", given ONone (client_cert_enabled a));
   ("host_names_disabled", given ONone (host_names_disabled a));
   ("outbound_ip_addresses", ONone);
   ("container_size", given ONone (container_size a));
   ("daily_memory_time_quota", given ONone (daily_memory_time_quota a));
   ("suspended_till", ONone);
   ("max_number_of_workers", ONone);
   ("cloning_info", given ONone (cloning_info a));
   ("resource_group", ONone);
   ("is_default_container", ONone);
   ("default_host_name", ONone);
   ("slot_swap_status", ONone)].

(** [setattr(self, name, value)] and [getattr(self, name)] on the
    attributes of an instance. *)
Definition setattr (self : list (string * pyobj)) (name : string)
    (value : pyobj) : list (string * pyobj) :=
  dict_set String.eqb name value self.

Definition getattr (self : list (string * pyobj)) (name : string)
  : option pyobj :=
  dict_get String.eqb name self.

(** [[
def __init__(self, location, name=None, kind=None, type=None, tags=None, ...):
    super(Site, self).__init__(name=name, kind=kind, location=location, type=type, tags=tags)
    self.state = None
    ...
]]
    [Resource.__init__] is the constructor of the base class, from
    [resource.py]: given [name], [kind], [location], [type] and [tags] it
    leaves the instance with some attributes.  The result is the
    attributes of the new instance. *)
Definition __init__
    (Resource__init__ :
       pyobj -> pyobj -> pyobj -> pyobj -> pyobj -> list (string * pyobj))
    (a : arguments) : list (string * pyobj) :=
  fold_left (fun self kv => setattr self (fst kv) (snd kv))
    (assignments a)
    (Resource__init__ (given ONone (name a)) (given ONone (kind a))
       (location a) (given ONone (type a)) (given ONone (tags a))).

(** Is the attribute marked [readonly] in [_validation]? *)
Definition readonly (attribute : string) : bool :=
  match dict_get String.eqb attribute _validation with
  | Some flags =>
      match dict_get String.eqb "readonly" flags with
      | Some b => b
      | None => false
      end
  | None => false
  end.

(** Is the attribute marked [required] in [_validation]? *)
Definition required (attribute : string) : bool :=
  match dict_get String.eqb attribute _validation with
  | Some flags =>
      match dict_get String.eqb "required" flags with
      | Some b => b
      | None => false
      end
  | None => false
  end.

(** The attributes that [Site.__init__] assigns itself. *)
Definition own_attributes : list string :=
  map fst (assignments
             (mk_arguments ONone None None None None None None None None None
                None None None None None None None None None None)).

End Site.

(** The iterator whose [next] goes through [_iterate_response_content]. *)
Definition guarded {A S : Type} (it : iterator A S) : iterator A S :=
  Iterator (fun s => _iterate_response_content it s).

(** Sample collaborators: builders that put the template in the request,
    a pipeline that answers every request with the same status, a
    deserializer that gives back a model named after the type asked
    for. *)
(** What an operation comes to when its call of the pipeline is refused:
    the [TypeError] of the interpreter, in the world that preparing the
    request left, or the exception that preparing the request raised. *)
Definition refused_after (self : Storages.operations)
    (prepared : outcome Storages.HttpRequest * world) : outcome pyobj * world :=
  match prepared with
  | (Returned _, w1) =>
      (Raised (Storages.TypeError
                 (Storages.multiple_values
                    (Storages.run_name
                       (Storages._pipeline (Storages.client self)))
                    "stream")),
       w1)
  | (Raised e, w1) => (Raised e, w1)
  end.

Module StoragesSample.

Definition build (a : Storages.build_args) : M Storages.HttpRequest :=
  ret (Storages.mk_HttpRequest (Storages.template_url a)
         (Storages.api_version_arg a)).

(** [str.lower] as it works on the ASCII keys of the samples. *)
Definition ascii_lower : string -> string := Multipart.lower.

Definition sample_imports : Storages.imports :=
  {| Storages.str_lower := ascii_lower;
     Storages.tracing_implementation := None;
     Storages.build_list_request := build;
     Storages.build_get_request := build;
     Storages.build_create_or_update_request := build;
     Storages.build_delete_request := build;
     Storages._convert_request := fun r => ret r;
     Storages.map_error := fun status response error_map =>
       match dict_get Nat.eqb status error_map with
       | Some c => raise (mk_exc c "")
       | None => ret tt
       end;
     Storages.error_message := fun _ _ => "operation failed" |}.

(** The same with a tracing implementation set up, whose span leaves the
    call as it is. *)
Definition tracing_imports : Storages.imports :=
  {| Storages.str_lower := ascii_lower;
     Storages.tracing_implementation := Some (fun parent call => call);
     Storages.build_list_request := build;
     Storages.build_get_request := build;
     Storages.build_create_or_update_request := build;
     Storages.build_delete_request := build;
     Storages._convert_request := Storages._convert_request sample_imports;
     Storages.map_error := Storages.map_error sample_imports;
     Storages.error_message := Storages.error_message sample_imports |}.

Definition answer (status : nat) : Storages.PipelineResponse :=
  {| Storages.http_response :=
       {| r_class := C_AsyncHttpClientTransportResponse;
          status_code := status;
          headers := [];
          content_type := Some "application/json";
          internal_response := 9;
          wire_body := [];
          body_state := NotYetRead |};
     Storages.pipeline_context := ONone |}.

Definition sample_operations (status : nat) : Storages.operations :=
  {| Storages.client :=
       {| Storages.format_url := fun u => ret u;
          Storages._pipeline :=
            {| Storages.run := fun request kwargs =>
                 Coroutine (log (EvSend 9) ;;; ret (answer status));
               Storages.run_name := "AsyncPipeline.run" |} |};
     Storages.config := {| Storages.api_version := OStr "2023-05-01";
                           Storages.subscription_id := OStr "sub" |};
     Storages.serializer :=
       {| Storages.body := fun v name => ret (OModel name 0) |};
     Storages.deserializer :=
       {| Storages.__call__ := fun name response => ret (OModel name 1);
          Storages.failsafe_deserialize := fun name response => ret (OModel name 2) |} |}.

Definition no_keywords : Storages.keywords :=
  Storages.mk_keywords None None None None None None [].

Definition stream_keyword : Storages.keywords :=
  Storages.mk_keywords None None None None None None
    [("stream", OBool true)].

Definition traced_keywords : Storages.keywords :=
  Storages.mk_keywords None None None None None None
    [("merge_span", OBool true); ("retry_total", OInt 3)].


Definition sample_site_arguments : Site.arguments :=
  Site.mk_arguments (OStr "westeurope") (Some (OStr "app")) None None None
    None None None (Some (OBool true)) None None None None None None None
    None None None None.

(** A base constructor that stores what it is given, and [id]. *)
Definition sample_resource_init (name kind location type tags : pyobj)
  : list (string * pyobj) :=
  [("id", ONone); ("name", name); ("kind", kind); ("location", location);
   ("type", type); ("tags", tags)].

End StoragesSample.

(** Runs the body of an operation up to the answer of the pipeline: a
    step before it that raises ends the operation. *)
Ltac run_to_pipeline H prepared Hreq Hrun Hstream :=
  unfold bind at 1 in H;
  destruct prepared as [[request | ?e] w1] eqn:Hreq; [| discriminate H];
  unfold bind at 1 in H; unfold Storages.run_pipeline at 1 in H;
  match type of H with
  | context [dict_get String.eqb "stream" ?kw] =>
      destruct (dict_get String.eqb "stream" kw) eqn:Hstream;
      [discriminate H |]
  end;
  match type of H with
  | context [await (Storages.run ?p ?r ?kw) ?w] =>
      destruct (await (Storages.run p r kw) w) as [[pr | ?e] w2] eqn:Hrun;
      [| discriminate H]
  end.

(** With [stream] among the keywords, a request that was prepared is not
    sent. *)
Ltac stops_before_pipeline prepared Hstream :=
  unfold bind at 1;
  destruct prepared as [[?request | ?e] ?w1]; [| reflexivity];
  unfold bind at 1; unfold Storages.run_pipeline at 1;
  rewrite Hstream; reflexivity.

(* ================================================================== *)
(** * Properties *)
(* ================================================================== *)

(** ** The iteration helper *)

Lemma class_eqb_refl (c : exc_class) : class_eqb c c = true.
Proof.
  induction c; simpl; try reflexivity.
  rewrite String.eqb_refl, IHc. reflexivity.
Qed.

Lemma issubclass_refl (c : exc_class) : issubclass c c = true.
Proof.
  unfold issubclass. destruct c; simpl; try reflexivity.
  rewrite String.eqb_refl, class_eqb_refl. reflexivity.
Qed.

(** C9.  [_iterate_response_content] hands back the iterator's next item
    in the world [next] left; when [next] raises [StopIteration] (or a
    class derived from it) the helper raises [_ResponseStopIteration]
    instead, any other exception passes through unchanged; so what the
    helper raises is never a [StopIteration], and [_ResponseStopIteration]
    derives from [Exception] alone. *)
Theorem iterate_response_content_next_or_stop :
  forall (A S : Type) (it : iterator A S) (s : S) (w : world),
    let r := _iterate_response_content it s w in
    snd r = snd (next it s w)
    /\ match fst (next it s w) with
       | Returned x => fst r = Returned x
       | Raised e =>
           if issubclass (exc_cls e) StopIteration
           then fst r = Raised _ResponseStopIteration
           else fst r = Raised e
       end
    /\ match fst r with
       | Returned _ => True
       | Raised e => issubclass (exc_cls e) StopIteration = false
       end
    /\ mro (exc_cls _ResponseStopIteration)
       = [ResponseStopIteration; Exception; BaseException].
Proof.
  intros A S it s w r. subst r.
  unfold _iterate_response_content, try_except.
  destruct (next it s w) as [[x | e] w'] eqn:Hn; simpl.
  - repeat split; reflexivity.
  - destruct (issubclass (exc_cls e) StopIteration) eqn:Hsub; simpl.
    + repeat split; reflexivity.
    + repeat split; try reflexivity. exact Hsub.
Qed.

(** On [iter([3; 4])] the helper gives [3] and leaves [4]; on the
    exhausted iterator it raises [_ResponseStopIteration]. *)
Example iterate_response_content_on_list :
  _iterate_response_content (list_iterator nat) [3; 4] empty_world
  = (Returned (3, [4]), empty_world)
  /\ _iterate_response_content (list_iterator nat) [] empty_world
     = (Raised _ResponseStopIteration, empty_world).
Proof. split; reflexivity. Qed.

(** ** The response envelope *)

Lemma parts_guard (ct : string) (p : string) :
  p <> EmptyString ->
  AsyncHttpResponse.not_content_type (Some ct)
  || negb (AsyncHttpResponse.startswith (Some ct) p)
  = negb (String.prefix p ct).
Proof.
  intros Hp. unfold AsyncHttpResponse.not_content_type,
    AsyncHttpResponse.startswith, truthy.
  destruct ct as [| c ct'].
  - destruct p; [congruence | reflexivity].
  - change (String.eqb (String c ct') "") with false. reflexivity.
Qed.

(** C1.  [parts()] raises [ValueError] exactly when the content type is
    absent or does not begin with [multipart/mixed]; otherwise it returns
    the generator over the response, which has parsed nothing yet.  Either
    way the world is the one the call started in: no byte of the body was
    read. *)
Theorem parts_raises_iff_not_multipart :
  forall (r : Response) (w : world),
    let not_multipart :=
      match content_type r with
      | None => true
      | Some ct => negb (String.prefix "multipart/mixed" ct)
      end in
    AsyncHttpResponse.parts r w
    = (if not_multipart
       then Raised (mk_exc ValueError
              "You can't get parts if the response is not multipart/mixed")
       else Returned
              (mk_PartGenerator r C_AsyncHttpClientTransportResponse None),
       w)
    /\ (forall h, bytes_read h (trace (snd (AsyncHttpResponse.parts r w)))
                  = bytes_read h (trace w)).
Proof.
  intros r w not_multipart. subst not_multipart.
  unfold AsyncHttpResponse.parts.
  destruct (content_type r) as [ct |].
  - rewrite parts_guard by discriminate.
    destruct (negb (String.prefix "multipart/mixed" ct));
      split; reflexivity.
  - split; reflexivity.
Qed.

(** C2.  [stream_download] of the base class raises
    [NotImplementedError] whatever the pipeline and the options are, and
    leaves the world as it was: no byte of the body is read. *)
Theorem stream_download_not_implemented :
  forall (Pipeline : Type) (self : Response) (pipeline : Pipeline)
         (kwargs : list (string * pyval)) (w : world),
    AsyncHttpResponse.stream_download self pipeline kwargs w
    = (Raised (mk_exc NotImplementedError "stream_download is not implemented."),
       w)
    /\ (forall h,
          bytes_read h
            (trace (snd (AsyncHttpResponse.stream_download
                           self pipeline kwargs w)))
          = bytes_read h (trace w)).
Proof. intros. split; reflexivity. Qed.

(** C6, as the claim states it, fails: the scoped exit of a response whose
    connection is held leaves the connection held. *)
Lemma aexit_keeps_resource_held :
  ~ aexit_releases Sample.json_response Sample.held_world.
Proof.
  unfold aexit_releases. simpl. intros [Hrel _].
  apply Hrel. left. reflexivity.
Qed.

(** C6, amended.  The scoped exit of a response does no cleanup of its
    own: whatever the exit circumstance it returns [None] and leaves the
    world as it was, so it never raises; and [None] being false, a scope
    on a response ends the way its body ended, an exception raised in the
    body propagating unchanged. *)
Theorem aexit_returns_none_and_propagates :
  forall (r : Response) (exc_type : option exc_class)
         (exc_value : option exc) (tb : option traceback)
         (body : Response -> M unit) (w : world),
    await (AsyncHttpResponse.__aexit__ r exc_type exc_value tb) w
    = (Returned PyNone, w)
    /\ truthy PyNone = false
    /\ async_with (AbstractAsyncContextManager.__aenter__ r)
                  (AsyncHttpResponse.__aexit__ r) body w
       = (match fst (body r w) with
          | Returned _ => Returned tt
          | Raised e => Raised e
          end, snd (body r w)).
Proof.
  intros r exc_type exc_value tb body w. repeat split.
  unfold async_with. simpl.
  destruct (body r w) as [[[] | e] w']; reflexivity.
Qed.

(** ** The transport *)

(** C4.  For a duration that is not negative, the default [sleep] awaits
    the delay of the runtime with that very duration, once, and does
    nothing else; it ends the way the runtime's delay ends, and when that
    completes it returns [None]. *)
Theorem sleep_delegates_to_runtime :
  forall (Self : Type) (self : Self) (d : float) (w : world),
    PrimFloat.leb 0 d = true ->
    let r := await (AsyncHttpTransport.sleep self d) w in
    snd r = snd (await (asyncio.sleep d) w)
    /\ trace (snd r) = trace w ++ [EvRuntimeSleep d]
    /\ match fst (await (asyncio.sleep d) w) with
       | Returned _ => fst r = Returned PyNone
       | Raised e => fst r = Raised e
       end.
Proof.
  intros Self self d w _ r. subst r.
  unfold AsyncHttpTransport.sleep, asyncio.sleep, bind, ret. simpl.
  destruct (host_delay w d); repeat split; reflexivity.
Qed.

Lemma sleep_delegates_to_runtime_witness :
  PrimFloat.leb 0 1.5 = true
  /\ trace (snd (await (AsyncHttpTransport.sleep tt 1.5) empty_world))
     = trace empty_world ++ [EvRuntimeSleep 1.5].
Proof.
  split; [reflexivity |].
  apply (@sleep_delegates_to_runtime unit tt 1.5%float empty_world eq_refl).
Defined.

(** C10.  The default [sleep] checks nothing about its duration: whatever
    the duration, negative ones included, it awaits the delay of the
    runtime with it, and an exception comes out of [sleep] only if the
    runtime's delay raised it.  With a runtime that completes, [sleep(-1)]
    returns [None] after one call of the delay with [-1]. *)
Theorem sleep_does_not_check_duration :
  forall (Self : Type) (self : Self) (d : float) (w : world),
    let r := await (AsyncHttpTransport.sleep self d) w in
    trace (snd r) = trace w ++ [EvRuntimeSleep d]
    /\ fst r = match host_delay w d with
               | None => Returned PyNone
               | Some e => Raised e
               end
    /\ PrimFloat.leb 0 (-1) = false
    /\ await (AsyncHttpTransport.sleep self (-1)) empty_world
       = (Returned PyNone, emit (EvRuntimeSleep (-1)) empty_world).
Proof.
  intros Self self d w r. subst r.
  unfold AsyncHttpTransport.sleep, asyncio.sleep, bind, ret. simpl.
  destruct (host_delay w d); repeat split; reflexivity.
Qed.

(** C5, as the claim states it, fails: a transport that defines the
    abstract methods and nothing more is entered without [open] and left
    without [close].  When its [send] raises, the error reaches the caller
    with [send] as the only thing that happened, where scoped acquisition
    has [open] before it and [close] after it. *)
Lemma scope_of_minimal_transport_skips_open_and_close :
  let T := MinimalTransport.cls in
  let r := AsyncHttpTransport.scope T 7 (Sample.send_once T) empty_world in
  fst r = Raised MinimalTransport.TransportError
  /\ trace (snd r) = [EvSend 7]
  /\ trace (snd (scoped_acquisition_spec (m_open T 7) (m_close T 7)
                   (Sample.send_once T 7) empty_world))
     = [EvAcquire 7; EvSend 7; EvRelease 7]
  /\ r <> scoped_acquisition_spec (m_open T 7) (m_close T 7)
            (Sample.send_once T 7) empty_world.
Proof.
  repeat split. intros H.
  apply (f_equal (fun x => List.length (trace (snd x)))) in H.
  discriminate H.
Qed.

(** C5, amended.  The base class inherits an [__aenter__] that only
    returns the transport and leaves [__aexit__] to the derived class.
    For every transport whose [__aenter__] awaits [open] and returns the
    transport, and whose [__aexit__] awaits [close] and returns [None], a
    scope runs [open], then the body, then [close] on every exit path: when
    the body (a [send], say) raises, [close] has run before the error
    reaches the caller. *)
Theorem scope_calls_open_then_close :
  forall (Self Req Resp : Type) (T : transport_class Self Req Resp)
         (self : Self) (body : Self -> M unit) (w : world),
    (forall w0, await (m_aenter T self) w0
                = (await (m_open T self) ;;; ret self) w0) ->
    (forall exc_type exc_value tb w0,
        await (m_aexit T self exc_type exc_value tb) w0
        = (await (m_close T self) ;;; ret PyNone) w0) ->
    AsyncHttpTransport.scope T self body w
    = scoped_acquisition_spec (m_open T self) (m_close T self) (body self) w.
Proof.
  intros Self Req Resp T self body w Henter Hexit.
  unfold AsyncHttpTransport.scope, async_with, scoped_acquisition_spec.
  rewrite Henter. unfold bind, ret.
  destruct (await (m_open T self) w) as [[v | e] w1]; [| reflexivity].
  destruct (body self w1) as [[[] | e] w2].
  - rewrite Hexit. unfold bind, ret.
    destruct (await (m_close T self) w2) as [[v' | e'] w3]; reflexivity.
  - rewrite Hexit. unfold bind, ret.
    destruct (await (m_close T self) w2) as [[v' | e'] w3]; reflexivity.
Qed.

Lemma scope_calls_open_then_close_witness :
  let T := SessionTransport.cls Sample.refused in
  let r := AsyncHttpTransport.scope T 1 (Sample.send_once T)
             Sample.fresh_transport_world in
  r = scoped_acquisition_spec (m_open T 1) (m_close T 1)
        (Sample.send_once T 1) Sample.fresh_transport_world
  /\ fst r = Raised MinimalTransport.TransportError
  /\ trace (snd r) = [EvAcquire 1; EvSend 1; EvRelease 1]
  /\ open_resources (snd r) = [].
Proof.
  split.
  - apply (@scope_calls_open_then_close nat string Response
             (SessionTransport.cls Sample.refused) 1
             (Sample.send_once (SessionTransport.cls Sample.refused))
             Sample.fresh_transport_world).
    + intros w0. reflexivity.
    + intros exc_type exc_value tb w0. reflexivity.
  - repeat split.
Defined.

(** A closed transport stays closed under [close]. *)
Lemma close_keeps_store (self : nat) (st : session_state) (w : world) :
  lookup_session self (sessions w) = Some st ->
  state st <> Opened ->
  await (SessionTransport.close self) w = (Returned PyNone, w).
Proof.
  intros Hl Hst. unfold SessionTransport.close, bind, get_session. simpl.
  rewrite Hl. destruct (state st); try reflexivity. congruence.
Qed.

(** C7.  On a transport that is already closed, [close] returns [None]
    and leaves the world -- the transport's own state, the resources held
    and the trace -- exactly as it was. *)
Theorem close_on_closed_transport_is_noop :
  forall (self : nat) (st : session_state) (w : world),
    lookup_session self (sessions w) = Some st ->
    state st = Closed ->
    await (SessionTransport.close self) w = (Returned PyNone, w).
Proof.
  intros self st w Hl Hst. apply (@close_keeps_store self st w Hl).
  rewrite Hst. discriminate.
Qed.

(** The transport that was opened and closed: closing it again changes
    nothing. *)
Lemma close_on_closed_transport_is_noop_witness :
  lookup_session 1 (sessions Sample.closed_transport_world)
  = Some (mk_session_state Closed None true)
  /\ trace Sample.closed_transport_world = [EvAcquire 1; EvRelease 1]
  /\ await (SessionTransport.close 1) Sample.closed_transport_world
     = (Returned PyNone, Sample.closed_transport_world).
Proof.
  split; [reflexivity |]. split; [reflexivity |].
  apply (@close_on_closed_transport_is_noop 1
           (mk_session_state Closed None true) Sample.closed_transport_world).
  - reflexivity.
  - reflexivity.
Defined.

(** ** Lines of a body *)

Section Lines.
Import Multipart.











End Lines.

(** ** The scan over a rendered body *)

Section Scan.
Import Multipart.

Variable boundary : string.

Let d : bytes := delimiter boundary.
Let c : bytes := close_delimiter boundary.



















End Scan.

(** ** The part generator *)

Section Generator.
Import Multipart.



Lemma decompose_typed (g : _PartGenerator) (ps : list Response)
    (w w' : world) :
  decompose g w = (Returned ps, w') ->
  Forall (fun p => r_class p = _default_http_response_type g) ps.
Proof.
  unfold decompose.
  destruct (content_type (_response g)) as [ct |]; [| discriminate].
  destruct (boundary_of ct) as [b |]; [| discriminate].
  unfold bind.
  destruct (read_body (_response g) w) as [[body | e] w1]; [| discriminate].
  unfold ret. intros H. inversion H; subst.
  apply Forall_forall. intros p Hp.
  apply in_map_iff in Hp. destruct Hp as [s [<- _]]. reflexivity.
Qed.

Lemma anext_typed (g g' : _PartGenerator) (p : Response) (w w' : world) :
  typed g ->
  await (__anext__ g) w = (Returned (p, g'), w') ->
  r_class p = _default_http_response_type g
  /\ _default_http_response_type g' = _default_http_response_type g
  /\ typed g'.
Proof.
  unfold typed, __anext__, bind. cbn [await]. intros Ht.
  assert (Hstep : forall ps w1,
            Forall (fun q => r_class q = _default_http_response_type g) ps ->
            match ps with
            | [] => raise (mk_exc StopAsyncIteration "")
            | q :: ps' =>
                ret (q, mk_PartGenerator (_response g)
                          (_default_http_response_type g) (Some ps'))
            end w1 = (Returned (p, g'), w') ->
            r_class p = _default_http_response_type g
            /\ _default_http_response_type g'
               = _default_http_response_type g
            /\ match _parts g' with
               | Some qs =>
                   Forall (fun q => r_class q = _default_http_response_type g')
                          qs
               | None => True
               end).
  { intros ps w1 Hps H. destruct ps as [| q ps']; [discriminate |].
    unfold ret in H. inversion H; subst. inversion Hps; subst.
    cbn. repeat split; assumption. }
  destruct (_parts g) as [ps |] eqn:Ep.
  - unfold ret. apply Hstep, Ht.
  - destruct (decompose g w) as [[ps | e] w1] eqn:Ed; [| discriminate].
    apply Hstep. apply (@decompose_typed g ps w w1 Ed).
Qed.

Lemma collect_typed :
  forall (fuel : nat) (g : _PartGenerator) (w w' : world)
         (out : list Response),
    typed g ->
    async_collect __anext__ fuel g w = (Returned out, w') ->
    Forall (fun p => r_class p = _default_http_response_type g) out.
Proof.
  induction fuel as [| fuel IH]; intros g w w' out Ht H.
  - discriminate.
  - cbn [async_collect] in H.
    destruct (await (__anext__ g) w) as [[[p g'] | e] w1] eqn:En.
    + destruct (@anext_typed g g' p w w1 Ht En) as [Hp [Hd Ht']].
      destruct (async_collect __anext__ fuel g' w1) as [[xs | e] w2] eqn:Ec;
        [| discriminate].
      inversion H; subst. constructor; [exact Hp |].
      rewrite <- Hd. apply (IH g' w1 w' xs Ht' Ec).
    + destruct (issubclass (exc_cls e) StopAsyncIteration); [| discriminate].
      inversion H; subst. constructor.
Qed.



End Generator.

Lemma async_response_resolves (k : response_class) (op : response_op) :
  is_async_response k = true ->
  In op response_operations ->
  resolve k op <> None.
Proof.
  intros Hk Hop.
  destruct k; try discriminate Hk.
  - cbn in Hop. decompose [or] Hop; subst; try discriminate; contradiction.
  - cbn in Hop. decompose [or] Hop; subst; try discriminate; contradiction.
  - unfold resolve. cbn [response_mro find declares].
    destruct (existsb (response_op_eqb op) own); [discriminate |].
    cbn in Hop. decompose [or] Hop; subst; try discriminate; contradiction.
Qed.




(** The same segment between a preamble and an epilogue. *)
Example parts_skip_preamble_and_epilogue :
  exists (g : _PartGenerator) (ps : list Response),
    AsyncHttpResponse.parts Sample.framed_response empty_world
    = (Returned g, empty_world)
    /\ async_collect Multipart.__anext__ 2 g empty_world
       = (Returned ps,
          emit (EvBodyRead 5
                  (List.length (wire_body Sample.framed_response)))
               empty_world)
    /\ List.length ps = 1
    /\ Forall2 part_matches ps [Sample.json_segment].
Proof.
  exists (mk_PartGenerator Sample.framed_response
            C_AsyncHttpClientTransportResponse None).
  exists [Multipart.part_of Sample.framed_response
            C_AsyncHttpClientTransportResponse Sample.json_segment].
  split; [reflexivity |]. split; [reflexivity |]. split; [reflexivity |].
  constructor; [| constructor].
  split; [reflexivity |]. split; [reflexivity |].
  apply header_value_here. reflexivity.
Qed.

(** C8, as the claim states it, fails: the part cut out of a response of
    a backend that streams does not stream.  The parent's
    [stream_download] is the backend's and gives a stream; the part is an
    [AsyncHttpClientTransportResponse], whose [stream_download] is the one
    of [AsyncHttpResponse] and raises [NotImplementedError]. *)
Lemma part_does_not_stream_like_its_parent :
  async_collect Multipart.__anext__ 2
    (mk_PartGenerator Sample.multipart_response
       C_AsyncHttpClientTransportResponse None) empty_world
  = (Returned [Sample.json_part],
     emit (EvBodyRead 5 (List.length Sample.multipart_body)) empty_world)
  /\ ~ streams_like_parent Sample.streaming_backend
        Sample.multipart_response Sample.json_part.
Proof.
  split; [reflexivity |].
  intros H. specialize (H tt [] empty_world eq_refl). discriminate H.
Qed.

(** C8, amended.  On a multipart response, [parts()] builds the generator
    with [AsyncHttpClientTransportResponse] as the type to make parts of.
    That class derives from [AsyncHttpResponse]: every part the generator
    yields is an instance of it and has each operation of a response
    envelope by name (status, headers, body access, [parts],
    [stream_download]), as the parent has.  Its [parts] and its
    [stream_download] are the ones [AsyncHttpResponse] defines, so
    [stream_download] on a part raises [NotImplementedError], whatever the
    parent's does. *)
Theorem parts_builds_response_envelopes :
  forall (r : Response) (w w' : world) (fuel : nat) (ps : list Response),
    is_async_response (r_class r) = true ->
    AsyncHttpResponse.startswith (content_type r) "multipart/mixed" = true ->
    async_collect Multipart.__anext__ fuel
      (mk_PartGenerator r C_AsyncHttpClientTransportResponse None) w
    = (Returned ps, w') ->
    AsyncHttpResponse.parts r w
    = (Returned (mk_PartGenerator r C_AsyncHttpClientTransportResponse None),
       w)
    /\ is_async_response C_AsyncHttpClientTransportResponse = true
    /\ Forall
         (fun p =>
            r_class p = C_AsyncHttpClientTransportResponse
            /\ (forall op, In op response_operations ->
                           resolve (r_class p) op <> None
                           /\ resolve (r_class r) op <> None)
            /\ resolve (r_class p) OpParts = Some C_AsyncHttpResponse
            /\ resolve (r_class p) OpStreamDownload = Some C_AsyncHttpResponse
            /\ (forall (Pipeline : Type)
                       (backend : string -> Response -> Pipeline
                                  -> list (string * pyval)
                                  -> M (async_iterator (list byte)))
                       (pipeline : Pipeline) (kwargs : list (string * pyval))
                       (w0 : world),
                   call_stream_download backend p pipeline kwargs w0
                   = (Raised (mk_exc NotImplementedError
                                "stream_download is not implemented."),
                      w0)))
         ps.
Proof.
  intros r w w' fuel ps Hcls Hstart Hc.
  split; [| split; [reflexivity |]].
  - unfold AsyncHttpResponse.parts.
    destruct (content_type r) as [ct |] eqn:Hct; [| discriminate Hstart].
    rewrite parts_guard by discriminate.
    unfold AsyncHttpResponse.startswith in Hstart. rewrite Hstart.
    reflexivity.
  - pose proof (@collect_typed fuel
                  (mk_PartGenerator r C_AsyncHttpClientTransportResponse None)
                  w w' ps I Hc) as Ht.
    cbn [_default_http_response_type] in Ht.
    apply Forall_forall. intros p Hp.
    rewrite Forall_forall in Ht. specialize (Ht p Hp).
    split; [exact Ht |]. rewrite Ht.
    split; [| split; [reflexivity | split; [reflexivity |]]].
    + intros op Hop. split.
      * apply async_response_resolves; [reflexivity | exact Hop].
      * apply async_response_resolves; assumption.
    + intros Pipeline backend pipeline kwargs w0.
      unfold call_stream_download. rewrite Ht. reflexivity.
Qed.

Lemma parts_builds_response_envelopes_witness :
  AsyncHttpResponse.parts Sample.multipart_response empty_world
  = (Returned (mk_PartGenerator Sample.multipart_response
                 C_AsyncHttpClientTransportResponse None),
     empty_world)
  /\ is_async_response C_AsyncHttpClientTransportResponse = true
  /\ Forall
       (fun p =>
          r_class p = C_AsyncHttpClientTransportResponse
          /\ (forall op, In op response_operations ->
                         resolve (r_class p) op <> None
                         /\ resolve (r_class Sample.multipart_response) op
                            <> None)
          /\ resolve (r_class p) OpParts = Some C_AsyncHttpResponse
          /\ resolve (r_class p) OpStreamDownload = Some C_AsyncHttpResponse
          /\ (forall (Pipeline : Type)
                     (backend : string -> Response -> Pipeline
                                -> list (string * pyval)
                                -> M (async_iterator (list byte)))
                     (pipeline : Pipeline) (kwargs : list (string * pyval))
                     (w0 : world),
                 call_stream_download backend p pipeline kwargs w0
                 = (Raised (mk_exc NotImplementedError
                              "stream_download is not implemented."),
                    w0)))
       [Sample.json_part].
Proof.
  apply (@parts_builds_response_envelopes Sample.multipart_response
           empty_world
           (emit (EvBodyRead 5 (List.length Sample.multipart_body))
              empty_world)
           2 [Sample.json_part]); reflexivity.
Defined.

Unset Implicit Arguments.

Section DictFacts.

Variables K V : Type.
Variable eqb : K -> K -> bool.

Hypothesis eqb_refl : forall a, eqb a a = true.
Hypothesis eqb_sym : forall a b, eqb a b = eqb b a.
Hypothesis eqb_trans :
  forall a b c, eqb a b = true -> eqb b c = true -> eqb a c = true.

Lemma eqb_false_trans (a b c : K) :
  eqb a b = true -> eqb a c = false -> eqb b c = false.
Proof.
  intros Hab Hac. destruct (eqb b c) eqn:Hbc; [| reflexivity].
  rewrite (eqb_trans a b c Hab Hbc) in Hac. discriminate.
Qed.

Lemma dict_get_set_same (k k' : K) (v : V) (d : list (K * V)) :
  eqb k k' = true -> dict_get eqb k (dict_set eqb k' v d) = Some v.
Proof.
  intros Hk. induction d as [| [k0 v0] d IH]; cbn [dict_set dict_get].
  - rewrite Hk. reflexivity.
  - destruct (eqb k' k0) eqn:E; cbn [dict_get].
    + rewrite Hk. reflexivity.
    + assert (Hk0 : eqb k k0 = false).
      { rewrite eqb_sym in Hk. rewrite eqb_sym.
        rewrite eqb_sym in E.
        destruct (eqb k0 k) eqn:E'; [| reflexivity].
        rewrite (eqb_trans k0 k k' E' (eq_trans (eqb_sym k k') Hk)) in E.
        discriminate. }
      rewrite Hk0. exact IH.
Qed.

Lemma dict_get_set_other (k k' : K) (v : V) (d : list (K * V)) :
  eqb k k' = false -> dict_get eqb k (dict_set eqb k' v d) = dict_get eqb k d.
Proof.
  intros Hk. induction d as [| [k0 v0] d IH]; cbn [dict_set dict_get].
  - rewrite Hk. reflexivity.
  - destruct (eqb k' k0) eqn:E; cbn [dict_get].
    + rewrite Hk.
      assert (Hk0 : eqb k k0 = false).
      { rewrite eqb_sym in Hk. rewrite eqb_sym.
        rewrite eqb_sym. rewrite eqb_sym in Hk.
        destruct (eqb k k0) eqn:E'; [| reflexivity].
        rewrite eqb_sym in E.
        rewrite (eqb_trans k k0 k' E' E) in Hk. discriminate. }
      rewrite Hk0. reflexivity.
    + destruct (eqb k k0); [reflexivity | exact IH].
Qed.

Lemma dict_get_del (k k' : K) (d : list (K * V)) :
  dict_get eqb k (dict_del eqb k' d)
  = if eqb k k' then None else dict_get eqb k d.
Proof.
  unfold dict_del. induction d as [| [k0 v0] d IH]; cbn [filter dict_get fst].
  - destruct (eqb k k'); reflexivity.
  - destruct (eqb k' k0) eqn:E; cbn [negb dict_get].
    + rewrite IH. destruct (eqb k k') eqn:Hk; [reflexivity |].
      assert (Hk0 : eqb k k0 = false).
      { destruct (eqb k k0) eqn:E'; [| reflexivity].
        rewrite eqb_sym in E.
        rewrite (eqb_trans k k0 k' E' E) in Hk. discriminate. }
      rewrite Hk0. reflexivity.
    + rewrite IH. destruct (eqb k k') eqn:Hk.
      * assert (Hk0 : eqb k k0 = false).
        { destruct (eqb k k0) eqn:E'; [| reflexivity].
          rewrite eqb_sym in Hk.
          rewrite (eqb_trans k' k k0 Hk E') in E. discriminate. }
        rewrite Hk0. reflexivity.
      * reflexivity.
Qed.

Lemma dict_update_snoc (d d2 : list (K * V)) (k : K) (v : V) :
  dict_update eqb d (d2 ++ [(k, v)]) = dict_set eqb k v (dict_update eqb d d2).
Proof. unfold dict_update. rewrite fold_left_app. reflexivity. Qed.

(** After [d.update(d2)], a key has the value of its last item in [d2],
    or the one it had in [d]. *)
Lemma dict_get_update (k : K) (d d2 : list (K * V)) :
  dict_get eqb k (dict_update eqb d d2)
  = match dict_get eqb k (rev d2) with
    | Some v => Some v
    | None => dict_get eqb k d
    end.
Proof.
  induction d2 as [| [k1 v1] d2 IH] using rev_ind.
  - reflexivity.
  - rewrite dict_update_snoc, rev_app_distr. cbn [rev app dict_get].
    destruct (eqb k k1) eqn:E.
    + apply dict_get_set_same, E.
    + rewrite (dict_get_set_other _ _ _ _ E). exact IH.
Qed.

End DictFacts.

Lemma string_eqb_trans (a b c : string) :
  String.eqb a b = true -> String.eqb b c = true -> String.eqb a c = true.
Proof.
  intros Hab Hbc. apply String.eqb_eq in Hab. apply String.eqb_eq in Hbc.
  subst. apply String.eqb_refl.
Qed.

Lemma ci_eqb_sym (lower : string -> string) (a b : string) :
  ci_eqb lower a b = ci_eqb lower b a.
Proof. apply String.eqb_sym. Qed.

Lemma ci_eqb_trans (lower : string -> string) (a b c : string) :
  ci_eqb lower a b = true -> ci_eqb lower b c = true ->
  ci_eqb lower a c = true.
Proof. apply string_eqb_trans. Qed.

Lemma nat_eqb_sym (a b : nat) : Nat.eqb a b = Nat.eqb b a.
Proof. apply Nat.eqb_sym. Qed.

Lemma nat_eqb_trans (a b c : nat) :
  Nat.eqb a b = true -> Nat.eqb b c = true -> Nat.eqb a c = true.
Proof.
  intros Hab Hbc. apply Nat.eqb_eq in Hab. apply Nat.eqb_eq in Hbc.
  subst. apply Nat.eqb_refl.
Qed.

(** Looking a key up in [case_insensitive_dict(d)] finds the last item of
    [d] whose key is the same but for case. *)
Lemma case_insensitive_dict_get {V : Type} (lower : string -> string)
    (k : string) (d : list (string * V)) :
  dict_get (ci_eqb lower) k (case_insensitive_dict lower d)
  = dict_get (ci_eqb lower) k (rev d).
Proof.
  unfold case_insensitive_dict.
  rewrite (dict_get_update _ _ _ (ci_eqb_sym lower) (ci_eqb_trans lower)).
  destruct (dict_get (ci_eqb lower) k (rev d)); reflexivity.
Qed.

(* ================================================================== *)
(** * The storages operations *)
(* ================================================================== *)

(** X1.  The constructor fills [_client], [_config], [_serialize] and
    [_deserialize], in this order, from the positional arguments as far as
    they go and from the keywords [client], [config], [serializer] and
    [deserializer] after that.  A keyword for a slot that a positional
    argument fills is not looked at, positional arguments beyond the fourth
    are dropped, and the first slot that neither fills raises [KeyError]
    with its keyword. *)
Theorem init_takes_positional_then_keyword :
  forall (V : Type) (args : list V) (kwargs : list (string * V)),
    Storages.__init__ args kwargs
    = match Storages.argument_for 0 "client" args kwargs with
      | None => Raised (Storages.KeyError "client")
      | Some c =>
      match Storages.argument_for 1 "config" args kwargs with
      | None => Raised (Storages.KeyError "config")
      | Some cf =>
      match Storages.argument_for 2 "serializer" args kwargs with
      | None => Raised (Storages.KeyError "serializer")
      | Some s =>
      match Storages.argument_for 3 "deserializer" args kwargs with
      | None => Raised (Storages.KeyError "deserializer")
      | Some ds => Returned (Storages.mk_attributes c cf s ds)
      end end end end.
Proof.
  intros V args kwargs.
  pose proof (dict_get_del _ V String.eqb String.eqb_sym string_eqb_trans)
    as Hdel.
  unfold Storages.__init__, Storages.argument_for, Storages.pop_argument.
  destruct args as [| a0 [| a1 [| a2 [| a3 rest]]]]; cbn [nth_error].
  - destruct (dict_get String.eqb "client" kwargs) as [c |]; [| reflexivity].
    rewrite Hdel. cbn [String.eqb Ascii.eqb Bool.eqb].
    destruct (dict_get String.eqb "config" kwargs) as [cf |];
      [| reflexivity].
    rewrite !Hdel. cbn [String.eqb Ascii.eqb Bool.eqb].
    destruct (dict_get String.eqb "serializer" kwargs) as [s |];
      [| reflexivity].
    rewrite !Hdel. cbn [String.eqb Ascii.eqb Bool.eqb].
    destruct (dict_get String.eqb "deserializer" kwargs); reflexivity.
  - destruct (dict_get String.eqb "config" kwargs) as [cf |];
      [| reflexivity].
    rewrite !Hdel. cbn [String.eqb Ascii.eqb Bool.eqb].
    destruct (dict_get String.eqb "serializer" kwargs) as [s |];
      [| reflexivity].
    rewrite !Hdel. cbn [String.eqb Ascii.eqb Bool.eqb].
    destruct (dict_get String.eqb "deserializer" kwargs); reflexivity.
  - destruct (dict_get String.eqb "serializer" kwargs) as [s |];
      [| reflexivity].
    rewrite !Hdel. cbn [String.eqb Ascii.eqb Bool.eqb].
    destruct (dict_get String.eqb "deserializer" kwargs); reflexivity.
  - destruct (dict_get String.eqb "deserializer" kwargs); reflexivity.
  - reflexivity.
Qed.

(** X2.  The error map an operation works with has, for each status code,
    the class of the last item the caller's [error_map] gives it; for a
    code the caller does not map, 401, 404, 409 and 304 keep the classes
    the operation starts from and no other code is mapped.  An [error_map]
    left out, [None] or empty changes nothing. *)
Theorem error_map_keeps_defaults_unless_overridden :
  forall (kwargs : Storages.keywords) (status : nat),
    dict_get Nat.eqb status (Storages.error_map_of kwargs)
    = match dict_get Nat.eqb status
              (rev (Storages.pop_or_empty (Storages.kw_error_map kwargs))) with
      | Some c => Some c
      | None =>
          if Nat.eqb status 401 then Some Storages.ClientAuthenticationError
          else if Nat.eqb status 404 then Some Storages.ResourceNotFoundError
          else if Nat.eqb status 409 then Some Storages.ResourceExistsError
          else if Nat.eqb status 304
               then Some Storages.ResourceNotModifiedError
          else None
      end.
Proof.
  intros kwargs status. unfold Storages.error_map_of.
  rewrite (dict_get_update _ _ Nat.eqb nat_eqb_sym nat_eqb_trans).
  reflexivity.
Qed.

(** X3.  The API version an operation asks for is the [api_version]
    keyword if there is one, else the last [params] item whose key is
    [api-version] in any letter case, else the version of the
    configuration.  Whichever it is, the query parameters handed to the
    request builder have no [api-version] key left, and every other key
    has the value of its last item in [params].  Two keys are the same
    when [str.lower] makes them equal, whatever [str.lower] does to
    letters outside ASCII. *)
Theorem api_version_is_taken_out_of_params :
  forall (I : Storages.imports) (self : Storages.operations)
         (kwargs : Storages.keywords) (k : string),
    let same := ci_eqb (Storages.str_lower I) in
    let user_params := Storages.pop_or_empty (Storages.kw_params kwargs) in
    let result := Storages.pop_api_version I self kwargs in
    fst result
    = match Storages.kw_api_version kwargs with
      | Some v => v
      | None =>
          match dict_get same "api-version" (rev user_params) with
          | Some v => OStr v
          | None => Storages.api_version (Storages.config self)
          end
      end
    /\ dict_get same k (snd result)
       = if same k "api-version" then None
         else dict_get same k (rev user_params).
Proof.
  intros I self kwargs k same user_params result.
  subst same user_params result.
  unfold Storages.pop_api_version. cbn [fst snd].
  rewrite (dict_get_del _ _ _ (ci_eqb_sym _) (ci_eqb_trans _)).
  rewrite !case_insensitive_dict_get. split; reflexivity.
Qed.

(** X4.  The content type [create_or_update] sends.  With a
    [content_type] keyword, it is the value of the keyword if that is
    true, and [application/json] if it is [None] or empty: the headers are
    not asked.  Without the keyword, it is the last [headers] item whose
    key is [Content-Type] in any letter case if its value is not empty,
    and [application/json] otherwise.  So it is never [None] or empty.
    In every case the headers handed to the request builder have no
    [Content-Type] key left. *)
Theorem content_type_defaults_to_json :
  forall (I : Storages.imports) (kwargs : Storages.keywords) (k : string),
    let same := ci_eqb (Storages.str_lower I) in
    let user_headers := Storages.pop_or_empty (Storages.kw_headers kwargs) in
    let result := Storages.pop_content_type I kwargs in
    fst result
    = match Storages.kw_content_type kwargs with
      | Some v => if truthy_obj v then v else OStr "application/json"
      | None =>
          match dict_get same "Content-Type" (rev user_headers) with
          | Some v =>
              if String.eqb v "" then OStr "application/json" else OStr v
          | None => OStr "application/json"
          end
      end
    /\ truthy_obj (fst result) = true
    /\ dict_get same k (snd result)
       = if same k "Content-Type" then None
         else dict_get same k (rev user_headers).
Proof.
  intros I kwargs k same user_headers result.
  subst same user_headers result.
  unfold Storages.pop_content_type. cbn [fst snd].
  rewrite (dict_get_del _ _ _ (ci_eqb_sym _) (ci_eqb_trans _)).
  rewrite !case_insensitive_dict_get.
  split; [| split; [| reflexivity]].
  - destruct (Storages.kw_content_type kwargs) as [v |]; [reflexivity |].
    destruct (dict_get _ "Content-Type" _) as [v |]; [| reflexivity].
    cbn [truthy_obj]. destruct (String.eqb v ""); reflexivity.
  - match goal with
    | |- truthy_obj (if truthy_obj ?x then _ else _) = true =>
        destruct (truthy_obj x) eqn:E; [exact E | reflexivity]
    end.
Qed.

(** A [content_type] keyword that is given but empty shuts the header
    out. *)
Example empty_content_type_keyword_hides_the_header :
  fst (Storages.pop_content_type StoragesSample.sample_imports
         (Storages.mk_keywords None (Some (Some [("Content-Type", "text/plain")]))
            None None (Some (OStr "")) None []))
  = OStr "application/json".
Proof. reflexivity. Qed.

(** ** The decorator *)

(** When no span is opened, a decorated method is the method itself,
    called without the two keywords of the decorator. *)
Lemma distributed_trace_async_no_span (I : Storages.imports)
    (func : Storages.keywords -> coroutine pyobj)
    (kwargs : Storages.keywords) :
  Storages.opens_span I kwargs = false ->
  await (Storages.distributed_trace_async I func kwargs)
  = await (func (Storages.without_tracing kwargs)).
Proof.
  unfold Storages.opens_span, Storages.distributed_trace_async.
  cbn [await].
  destruct (Storages.tracing_implementation I) as [span |];
    [| reflexivity].
  intros H. apply negb_false_iff in H. rewrite H. reflexivity.
Qed.

Lemma without_tracing_keeps (kwargs : Storages.keywords) (k : string) :
  String.eqb k "merge_span" = false ->
  String.eqb k "parent_span" = false ->
  dict_get String.eqb k (Storages.kw_others (Storages.without_tracing kwargs))
  = dict_get String.eqb k (Storages.kw_others kwargs).
Proof.
  intros Hm Hp. unfold Storages.without_tracing. cbn [Storages.kw_others].
  rewrite !(dict_get_del _ _ String.eqb String.eqb_sym string_eqb_trans).
  rewrite Hm, Hp. reflexivity.
Qed.

(** Neither keyword of the decorator reaches the method. *)
Lemma without_tracing_drops (kwargs : Storages.keywords) :
  dict_get String.eqb "merge_span"
    (Storages.kw_others (Storages.without_tracing kwargs)) = None
  /\ dict_get String.eqb "parent_span"
       (Storages.kw_others (Storages.without_tracing kwargs)) = None.
Proof.
  unfold Storages.without_tracing. cbn [Storages.kw_others].
  rewrite !(dict_get_del _ _ String.eqb String.eqb_sym string_eqb_trans).
  split; reflexivity.
Qed.

(** ** What comes back from an operation *)

Lemma fail_never_returns (A : Type) (I : Storages.imports)
    (self : Storages.operations) (pr : Storages.PipelineResponse)
    (error_map : list (nat * exc_class)) (w : world) :
  is_raised (fst (@Storages.fail A I self pr error_map w)) = true.
Proof.
  unfold Storages.fail, bind, raise.
  destruct (Storages.map_error I _ _ error_map w) as [[[] | e] w1];
    [| reflexivity].
  destruct (Storages.failsafe_deserialize _ _ pr w1) as [[m | e] w2];
    reflexivity.
Qed.

Lemma fail_not_returned (A : Type) (I : Storages.imports)
    (self : Storages.operations) (pr : Storages.PipelineResponse)
    (error_map : list (nat * exc_class)) (w w' : world) (v : A) :
  @Storages.fail A I self pr error_map w <> (Returned v, w').
Proof.
  intros H. pose proof (fail_never_returns A I self pr error_map w) as Hr.
  rewrite H in Hr. discriminate.
Qed.

Lemma not_in_200 (status : nat) :
  Storages.not_in status [200] = false -> status = 200.
Proof.
  unfold Storages.not_in. cbn [existsb]. rewrite orb_false_r.
  intros H. apply negb_false_iff in H. apply Nat.eqb_eq, H.
Qed.

Lemma not_in_200_204 (status : nat) :
  Storages.not_in status [200; 204] = false -> status = 200 \/ status = 204.
Proof.
  unfold Storages.not_in. cbn [existsb]. rewrite orb_false_r.
  intros H. apply negb_false_iff in H. apply orb_prop in H.
  destruct H as [H | H]; apply Nat.eqb_eq in H; auto.
Qed.

(** X5.  When no tracing span is opened around the call, [get] returns a
    value only if its request was prepared and the pipeline, run once on
    that request with [stream=False] and the keywords that neither the
    decorator nor the method took out, answered with status 200.  The
    value is then what the deserializer made of that answer as a
    [ConnectedEnvironmentStorage], or, when [cls] is given, what [cls]
    returns for the answer, the deserialized value and an empty dict. *)
Theorem get_returns_only_on_200 :
  forall (I : Storages.imports) (self : Storages.operations)
         (resource_group_name connected_environment_name storage_name : string)
         (kwargs : Storages.keywords) (w w' : world) (v : pyobj),
    Storages.opens_span I kwargs = false ->
    await (Storages.get I self resource_group_name connected_environment_name
             storage_name kwargs) w = (Returned v, w') ->
    let passed := Storages.without_tracing kwargs in
    exists (request : Storages.HttpRequest) (w1 w2 w3 : world)
           (pr : Storages.PipelineResponse) (d : pyobj),
      Storages.get_request I self resource_group_name
        connected_environment_name storage_name passed w
      = (Returned request, w1)
      /\ await (Storages.run (Storages._pipeline (Storages.client self))
                  request
                  (("stream", OBool false) :: Storages.remaining passed)) w1
         = (Returned pr, w2)
      /\ status_code (Storages.http_response pr) = 200
      /\ dict_get String.eqb "stream" (Storages.remaining passed) = None
      /\ Storages.__call__ (Storages.deserializer self)
           "ConnectedEnvironmentStorage" pr w2 = (Returned d, w3)
      /\ Storages.return_through (Storages.kw_cls kwargs) pr d w3
         = (Returned v, w').
Proof.
  intros I self rg env st kwargs w w' v Hspan H passed.
  unfold Storages.get in H.
  rewrite (distributed_trace_async_no_span _ _ _ Hspan) in H.
  fold passed in H. unfold Storages.get_body in H. cbn [await] in H.
  run_to_pipeline H (Storages.get_request I self rg env st passed w)
    Hreq Hrun Hstream.
  destruct (Storages.not_in (status_code (Storages.http_response pr)) [200])
    eqn:Hst.
  - exfalso. exact (fail_not_returned _ _ _ _ _ _ _ _ H).
  - unfold bind at 1 in H.
    destruct (Storages.__call__ (Storages.deserializer self)
                "ConnectedEnvironmentStorage" pr w2) as [[d | e] w3] eqn:Hd;
      [| discriminate H].
    exists request, w1, w2, w3, pr, d.
    repeat split; try assumption. apply not_in_200, Hst.
Qed.

Lemma get_returns_only_on_200_witness :
  let passed := Storages.without_tracing StoragesSample.traced_keywords in
  exists (request : Storages.HttpRequest) (w1 w2 w3 : world)
         (pr : Storages.PipelineResponse) (d : pyobj),
    Storages.get_request StoragesSample.sample_imports
      (StoragesSample.sample_operations 200) "rg" "env" "storage" passed
      empty_world
    = (Returned request, w1)
    /\ await (Storages.run
                (Storages._pipeline
                   (Storages.client (StoragesSample.sample_operations 200)))
                request
                (("stream", OBool false) :: Storages.remaining passed)) w1
       = (Returned pr, w2)
    /\ status_code (Storages.http_response pr) = 200
    /\ dict_get String.eqb "stream" (Storages.remaining passed) = None
    /\ Storages.__call__
         (Storages.deserializer (StoragesSample.sample_operations 200))
         "ConnectedEnvironmentStorage" pr w2 = (Returned d, w3)
    /\ Storages.return_through
         (Storages.kw_cls StoragesSample.traced_keywords) pr d w3
       = (Returned (OModel "ConnectedEnvironmentStorage" 1),
          emit (EvSend 9) empty_world).
Proof.
  apply (get_returns_only_on_200 StoragesSample.sample_imports
           (StoragesSample.sample_operations 200) "rg" "env" "storage"
           StoragesSample.traced_keywords empty_world);
    reflexivity.
Defined.

(** X6.  When no tracing span is opened around the call, [list] returns
    a value only if its request was prepared and the pipeline, run once
    on that request with [stream=False] and the keywords that neither the
    decorator nor the method took out, answered with status 200.  The
    value is what the deserializer made of the answer as a
    [ConnectedEnvironmentStoragesCollection], passed through [cls] when
    [cls] is given. *)
Theorem list_returns_only_on_200 :
  forall (I : Storages.imports) (self : Storages.operations)
         (resource_group_name connected_environment_name : string)
         (kwargs : Storages.keywords) (w w' : world) (v : pyobj),
    Storages.opens_span I kwargs = false ->
    await (Storages.list I self resource_group_name connected_environment_name
             kwargs) w = (Returned v, w') ->
    let passed := Storages.without_tracing kwargs in
    exists (request : Storages.HttpRequest) (w1 w2 w3 : world)
           (pr : Storages.PipelineResponse) (d : pyobj),
      Storages.list_request I self resource_group_name
        connected_environment_name passed w
      = (Returned request, w1)
      /\ await (Storages.run (Storages._pipeline (Storages.client self))
                  request
                  (("stream", OBool false) :: Storages.remaining passed)) w1
         = (Returned pr, w2)
      /\ status_code (Storages.http_response pr) = 200
      /\ dict_get String.eqb "stream" (Storages.remaining passed) = None
      /\ Storages.__call__ (Storages.deserializer self)
           "ConnectedEnvironmentStoragesCollection" pr w2 = (Returned d, w3)
      /\ Storages.return_through (Storages.kw_cls kwargs) pr d w3
         = (Returned v, w').
Proof.
  intros I self rg env kwargs w w' v Hspan H passed.
  unfold Storages.list in H.
  rewrite (distributed_trace_async_no_span _ _ _ Hspan) in H.
  fold passed in H. unfold Storages.list_body in H. cbn [await] in H.
  run_to_pipeline H (Storages.list_request I self rg env passed w)
    Hreq Hrun Hstream.
  destruct (Storages.not_in (status_code (Storages.http_response pr)) [200])
    eqn:Hst.
  - exfalso. exact (fail_not_returned _ _ _ _ _ _ _ _ H).
  - unfold bind at 1 in H.
    destruct (Storages.__call__ (Storages.deserializer self)
                "ConnectedEnvironmentStoragesCollection" pr w2)
      as [[d | e] w3] eqn:Hd; [| discriminate H].
    exists request, w1, w2, w3, pr, d.
    repeat split; try assumption. apply not_in_200, Hst.
Qed.

Lemma list_returns_only_on_200_witness :
  let passed := Storages.without_tracing StoragesSample.no_keywords in
  exists (request : Storages.HttpRequest) (w1 w2 w3 : world)
         (pr : Storages.PipelineResponse) (d : pyobj),
    Storages.list_request StoragesSample.sample_imports
      (StoragesSample.sample_operations 200) "rg" "env" passed empty_world
    = (Returned request, w1)
    /\ await (Storages.run
                (Storages._pipeline
                   (Storages.client (StoragesSample.sample_operations 200)))
                request
                (("stream", OBool false) :: Storages.remaining passed)) w1
       = (Returned pr, w2)
    /\ status_code (Storages.http_response pr) = 200
    /\ dict_get String.eqb "stream" (Storages.remaining passed) = None
    /\ Storages.__call__
         (Storages.deserializer (StoragesSample.sample_operations 200))
         "ConnectedEnvironmentStoragesCollection" pr w2 = (Returned d, w3)
    /\ Storages.return_through
         (Storages.kw_cls StoragesSample.no_keywords) pr d w3
       = (Returned (OModel "ConnectedEnvironmentStoragesCollection" 1),
          emit (EvSend 9) empty_world).
Proof.
  apply (list_returns_only_on_200 StoragesSample.sample_imports
           (StoragesSample.sample_operations 200) "rg" "env"
           StoragesSample.no_keywords empty_world);
    reflexivity.
Defined.

(** X7.  When no tracing span is opened around the call,
    [create_or_update] returns a value only if its request was prepared
    and the pipeline, run once on that request with [stream=False] and the
    keywords left after the decorator took its two and the method took
    its own, [content_type] among them, answered with status 200; a 201 or
    a 204 is an error.  The value is the deserialized
    [ConnectedEnvironmentStorage], passed through [cls] when [cls] is
    given. *)
Theorem create_or_update_returns_only_on_200 :
  forall (I : Storages.imports) (self : Storages.operations)
         (resource_group_name connected_environment_name storage_name : string)
         (storage_envelope : pyobj)
         (kwargs : Storages.keywords) (w w' : world) (v : pyobj),
    Storages.opens_span I kwargs = false ->
    await (Storages.create_or_update I self resource_group_name
             connected_environment_name storage_name storage_envelope
             kwargs) w = (Returned v, w') ->
    let passed := Storages.without_tracing kwargs in
    exists (request : Storages.HttpRequest) (w1 w2 w3 : world)
           (pr : Storages.PipelineResponse) (d : pyobj),
      Storages.create_or_update_request I self resource_group_name
        connected_environment_name storage_name storage_envelope passed w
      = (Returned request, w1)
      /\ await (Storages.run (Storages._pipeline (Storages.client self))
                  request
                  (("stream", OBool false) :: Storages.kw_others passed)) w1
         = (Returned pr, w2)
      /\ status_code (Storages.http_response pr) = 200
      /\ dict_get String.eqb "stream" (Storages.kw_others passed) = None
      /\ Storages.__call__ (Storages.deserializer self)
           "ConnectedEnvironmentStorage" pr w2 = (Returned d, w3)
      /\ Storages.return_through (Storages.kw_cls kwargs) pr d w3
         = (Returned v, w').
Proof.
  intros I self rg env st envelope kwargs w w' v Hspan H passed.
  unfold Storages.create_or_update in H.
  rewrite (distributed_trace_async_no_span _ _ _ Hspan) in H.
  fold passed in H. unfold Storages.create_or_update_body in H.
  cbn [await] in H.
  run_to_pipeline H
    (Storages.create_or_update_request I self rg env st envelope passed w)
    Hreq Hrun Hstream.
  destruct (Storages.not_in (status_code (Storages.http_response pr)) [200])
    eqn:Hst.
  - exfalso. exact (fail_not_returned _ _ _ _ _ _ _ _ H).
  - unfold bind at 1 in H.
    destruct (Storages.__call__ (Storages.deserializer self)
                "ConnectedEnvironmentStorage" pr w2) as [[d | e] w3] eqn:Hd;
      [| discriminate H].
    exists request, w1, w2, w3, pr, d.
    repeat split; try assumption. apply not_in_200, Hst.
Qed.

Lemma create_or_update_returns_only_on_200_witness :
  let passed := Storages.without_tracing StoragesSample.no_keywords in
  exists (request : Storages.HttpRequest) (w1 w2 w3 : world)
         (pr : Storages.PipelineResponse) (d : pyobj),
    Storages.create_or_update_request StoragesSample.sample_imports
      (StoragesSample.sample_operations 200) "rg" "env" "storage"
      (OModel "ConnectedEnvironmentStorage" 7) passed empty_world
    = (Returned request, w1)
    /\ await (Storages.run
                (Storages._pipeline
                   (Storages.client (StoragesSample.sample_operations 200)))
                request
                (("stream", OBool false) :: Storages.kw_others passed)) w1
       = (Returned pr, w2)
    /\ status_code (Storages.http_response pr) = 200
    /\ dict_get String.eqb "stream" (Storages.kw_others passed) = None
    /\ Storages.__call__
         (Storages.deserializer (StoragesSample.sample_operations 200))
         "ConnectedEnvironmentStorage" pr w2 = (Returned d, w3)
    /\ Storages.return_through
         (Storages.kw_cls StoragesSample.no_keywords) pr d w3
       = (Returned (OModel "ConnectedEnvironmentStorage" 1),
          emit (EvSend 9) empty_world).
Proof.
  apply (create_or_update_returns_only_on_200 StoragesSample.sample_imports
           (StoragesSample.sample_operations 200) "rg" "env" "storage"
           (OModel "ConnectedEnvironmentStorage" 7)
           StoragesSample.no_keywords empty_world);
    reflexivity.
Defined.

(** X8.  When no tracing span is opened around the call, [delete]
    returns only if its request was prepared and the pipeline, run once on
    that request with [stream=False] and the keywords that neither the
    decorator nor the method took out, answered with status 200 or 204.
    It deserializes nothing: it returns [None] in the world the pipeline
    left, or, when [cls] is given, what [cls] returns for the answer,
    [None] and an empty dict. *)
Theorem delete_returns_only_on_200_or_204 :
  forall (I : Storages.imports) (self : Storages.operations)
         (resource_group_name connected_environment_name storage_name : string)
         (kwargs : Storages.keywords) (w w' : world) (v : pyobj),
    Storages.opens_span I kwargs = false ->
    await (Storages.delete I self resource_group_name
             connected_environment_name storage_name kwargs) w
    = (Returned v, w') ->
    let passed := Storages.without_tracing kwargs in
    exists (request : Storages.HttpRequest) (w1 w2 : world)
           (pr : Storages.PipelineResponse),
      Storages.delete_request I self resource_group_name
        connected_environment_name storage_name passed w
      = (Returned request, w1)
      /\ await (Storages.run (Storages._pipeline (Storages.client self))
                  request
                  (("stream", OBool false) :: Storages.remaining passed)) w1
         = (Returned pr, w2)
      /\ (status_code (Storages.http_response pr) = 200
          \/ status_code (Storages.http_response pr) = 204)
      /\ dict_get String.eqb "stream" (Storages.remaining passed) = None
      /\ Storages.return_through (Storages.kw_cls kwargs) pr ONone w2
         = (Returned v, w').
Proof.
  intros I self rg env st kwargs w w' v Hspan H passed.
  unfold Storages.delete in H.
  rewrite (distributed_trace_async_no_span _ _ _ Hspan) in H.
  fold passed in H. unfold Storages.delete_body in H. cbn [await] in H.
  run_to_pipeline H (Storages.delete_request I self rg env st passed w)
    Hreq Hrun Hstream.
  destruct (Storages.not_in (status_code (Storages.http_response pr))
              [200; 204]) eqn:Hst.
  - exfalso. exact (fail_not_returned _ _ _ _ _ _ _ _ H).
  - exists request, w1, w2, pr.
    repeat split; try assumption. apply not_in_200_204, Hst.
Qed.

Lemma delete_returns_only_on_200_or_204_witness :
  let passed := Storages.without_tracing StoragesSample.no_keywords in
  exists (request : Storages.HttpRequest) (w1 w2 : world)
         (pr : Storages.PipelineResponse),
    Storages.delete_request StoragesSample.sample_imports
      (StoragesSample.sample_operations 204) "rg" "env" "storage" passed
      empty_world
    = (Returned request, w1)
    /\ await (Storages.run
                (Storages._pipeline
                   (Storages.client (StoragesSample.sample_operations 204)))
                request
                (("stream", OBool false) :: Storages.remaining passed)) w1
       = (Returned pr, w2)
    /\ (status_code (Storages.http_response pr) = 200
        \/ status_code (Storages.http_response pr) = 204)
    /\ dict_get String.eqb "stream" (Storages.remaining passed) = None
    /\ Storages.return_through
         (Storages.kw_cls StoragesSample.no_keywords) pr ONone w2
       = (Returned ONone, emit (EvSend 9) empty_world).
Proof.
  apply (delete_returns_only_on_200_or_204 StoragesSample.sample_imports
           (StoragesSample.sample_operations 204) "rg" "env" "storage"
           StoragesSample.no_keywords empty_world);
    reflexivity.
Defined.

(** The keywords of the decorator do not reach the pipeline: with a
    tracing implementation set up and [merge_span=True], the pipeline of
    [get] is run with [stream] and the caller's other keyword only. *)
Example merge_span_does_not_reach_the_pipeline :
  Storages.opens_span StoragesSample.tracing_imports
    StoragesSample.traced_keywords = false
  /\ Storages.remaining
       (Storages.without_tracing StoragesSample.traced_keywords)
     = [("retry_total", OInt 3)]
  /\ await (Storages.get StoragesSample.tracing_imports
              (StoragesSample.sample_operations 200) "rg" "env" "storage"
              StoragesSample.traced_keywords) empty_world
     = (Returned (OModel "ConnectedEnvironmentStorage" 1),
        emit (EvSend 9) empty_world).
Proof. repeat split. Qed.

Lemma dict_get_app_some {V : Type} (k : string) (v : V)
    (d d' : list (string * V)) :
  dict_get String.eqb k d = Some v ->
  dict_get String.eqb k (d ++ d') = Some v.
Proof.
  induction d as [| [k0 v0] d IH]; [discriminate |].
  cbn [app dict_get]. destruct (String.eqb k k0); [trivial | exact IH].
Qed.

Lemma remaining_keeps_stream (kwargs : Storages.keywords) (x : pyobj) :
  dict_get String.eqb "stream" (Storages.kw_others kwargs) = Some x ->
  dict_get String.eqb "stream" (Storages.remaining kwargs) = Some x.
Proof.
  intros H. unfold Storages.remaining.
  destruct (Storages.kw_content_type kwargs); [| exact H].
  apply dict_get_app_some, H.
Qed.

(** X9.  When no tracing span is opened around the call, an operation
    called with a [stream] keyword never runs the pipeline.  The operation
    passes [stream=False] itself, so once the request is prepared the call
    of the pipeline gets the keyword twice: the operation ends with the
    [TypeError] of the interpreter for [run], in the world that preparing
    the request left.  If preparing the request raised, the operation ends
    with that exception instead. *)
Theorem stream_keyword_is_refused :
  forall (I : Storages.imports) (self : Storages.operations)
         (resource_group_name connected_environment_name storage_name : string)
         (storage_envelope : pyobj)
         (kwargs : Storages.keywords) (x : pyobj) (w : world),
    Storages.opens_span I kwargs = false ->
    dict_get String.eqb "stream" (Storages.kw_others kwargs) = Some x ->
    let passed := Storages.without_tracing kwargs in
    await (Storages.list I self resource_group_name
             connected_environment_name kwargs) w
    = refused_after self
        (Storages.list_request I self resource_group_name
           connected_environment_name passed w)
    /\ await (Storages.get I self resource_group_name
                connected_environment_name storage_name kwargs) w
       = refused_after self
           (Storages.get_request I self resource_group_name
              connected_environment_name storage_name passed w)
    /\ await (Storages.create_or_update I self resource_group_name
                connected_environment_name storage_name storage_envelope
                kwargs) w
       = refused_after self
           (Storages.create_or_update_request I self resource_group_name
              connected_environment_name storage_name storage_envelope
              passed w)
    /\ await (Storages.delete I self resource_group_name
                connected_environment_name storage_name kwargs) w
       = refused_after self
           (Storages.delete_request I self resource_group_name
              connected_environment_name storage_name passed w).
Proof.
  intros I self rg env st envelope kwargs x w Hspan Hgiven passed.
  assert (Hothers :
            dict_get String.eqb "stream" (Storages.kw_others passed) = Some x).
  { unfold passed. rewrite without_tracing_keeps; [exact Hgiven | | ];
      reflexivity. }
  pose proof (remaining_keeps_stream passed x Hothers) as Hrem.
  repeat split.
  - unfold Storages.list.
    rewrite (distributed_trace_async_no_span _ _ _ Hspan). fold passed.
    unfold Storages.list_body. cbn [await].
    stops_before_pipeline (Storages.list_request I self rg env passed w) Hrem.
  - unfold Storages.get.
    rewrite (distributed_trace_async_no_span _ _ _ Hspan). fold passed.
    unfold Storages.get_body. cbn [await].
    stops_before_pipeline (Storages.get_request I self rg env st passed w)
      Hrem.
  - unfold Storages.create_or_update.
    rewrite (distributed_trace_async_no_span _ _ _ Hspan). fold passed.
    unfold Storages.create_or_update_body. cbn [await].
    stops_before_pipeline
      (Storages.create_or_update_request I self rg env st envelope passed w)
      Hothers.
  - unfold Storages.delete.
    rewrite (distributed_trace_async_no_span _ _ _ Hspan). fold passed.
    unfold Storages.delete_body. cbn [await].
    stops_before_pipeline (Storages.delete_request I self rg env st passed w)
      Hrem.
Qed.

Lemma stream_keyword_is_refused_witness :
  await (Storages.list StoragesSample.sample_imports
           (StoragesSample.sample_operations 200) "rg" "env"
           StoragesSample.stream_keyword) empty_world
  = (Raised (Storages.TypeError
               "AsyncPipeline.run() got multiple values for keyword argument 'stream'"),
     empty_world)
  /\ await (Storages.get StoragesSample.sample_imports
              (StoragesSample.sample_operations 200) "rg" "env" "storage"
              StoragesSample.stream_keyword) empty_world
     = (Raised (Storages.TypeError
                  "AsyncPipeline.run() got multiple values for keyword argument 'stream'"),
        empty_world)
  /\ await (Storages.create_or_update StoragesSample.sample_imports
              (StoragesSample.sample_operations 200) "rg" "env" "storage"
              ONone StoragesSample.stream_keyword) empty_world
     = (Raised (Storages.TypeError
                  "AsyncPipeline.run() got multiple values for keyword argument 'stream'"),
        empty_world)
  /\ await (Storages.delete StoragesSample.sample_imports
              (StoragesSample.sample_operations 200) "rg" "env" "storage"
              StoragesSample.stream_keyword) empty_world
     = (Raised (Storages.TypeError
                  "AsyncPipeline.run() got multiple values for keyword argument 'stream'"),
        empty_world).
Proof.
  apply (stream_keyword_is_refused StoragesSample.sample_imports
           (StoragesSample.sample_operations 200) "rg" "env" "storage"
           ONone StoragesSample.stream_keyword (OBool true) empty_world);
    reflexivity.
Defined.

(** X10.  When no tracing span is opened around the call, the request of
    [delete] was prepared and sent, and the answer has status 204,
    [delete] without [cls] returns [None] at once: the world is the one
    the pipeline left, so neither [map_error] nor a deserializer saw the
    answer. *)
Theorem delete_accepts_204 :
  forall (I : Storages.imports) (self : Storages.operations)
         (resource_group_name connected_environment_name storage_name : string)
         (kwargs : Storages.keywords) (w w1 w2 : world)
         (request : Storages.HttpRequest)
         (pr : Storages.PipelineResponse),
    Storages.opens_span I kwargs = false ->
    let passed := Storages.without_tracing kwargs in
    Storages.kw_cls kwargs = None ->
    dict_get String.eqb "stream" (Storages.remaining passed) = None ->
    Storages.delete_request I self resource_group_name
      connected_environment_name storage_name passed w
    = (Returned request, w1) ->
    await (Storages.run (Storages._pipeline (Storages.client self)) request
             (("stream", OBool false) :: Storages.remaining passed)) w1
    = (Returned pr, w2) ->
    status_code (Storages.http_response pr) = 204 ->
    await (Storages.delete I self resource_group_name
             connected_environment_name storage_name kwargs) w
    = (Returned ONone, w2).
Proof.
  intros I self rg env st kwargs w w1 w2 request pr
         Hspan passed Hcls Hstream Hreq Hrun Hstatus.
  unfold Storages.delete.
  rewrite (distributed_trace_async_no_span _ _ _ Hspan). fold passed.
  unfold Storages.delete_body. cbn [await].
  unfold bind at 1. rewrite Hreq.
  unfold bind at 1. unfold Storages.run_pipeline. rewrite Hstream, Hrun.
  rewrite Hstatus.
  change (Storages.kw_cls passed) with (Storages.kw_cls kwargs).
  rewrite Hcls. reflexivity.
Qed.

Lemma delete_accepts_204_witness :
  await (Storages.delete StoragesSample.sample_imports
           (StoragesSample.sample_operations 204) "rg" "env" "storage"
           StoragesSample.no_keywords) empty_world
  = (Returned ONone, emit (EvSend 9) empty_world).
Proof.
  apply (delete_accepts_204 StoragesSample.sample_imports
           (StoragesSample.sample_operations 204) "rg" "env" "storage"
           StoragesSample.no_keywords empty_world empty_world
           (emit (EvSend 9) empty_world)
           (Storages.mk_HttpRequest Storages.storage_url (OStr "2023-05-01"))
           (StoragesSample.answer 204)); reflexivity.
Defined.



(* ================================================================== *)
(** * The [Site] model *)
(* ================================================================== *)

(** An attribute of a new [Site] has the value of the last statement of
    [__init__] that assigns it, or the value the base constructor left. *)
Lemma site_getattr_init
    (R : pyobj -> pyobj -> pyobj -> pyobj -> pyobj -> list (string * pyobj))
    (a : Site.arguments) (attribute : string) :
  Site.getattr (Site.__init__ R a) attribute
  = match dict_get String.eqb attribute (rev (Site.assignments a)) with
    | Some v => Some v
    | None =>
        Site.getattr
          (R (Site.given ONone (Site.name a)) (Site.given ONone (Site.kind a))
             (Site.location a) (Site.given ONone (Site.type a))
             (Site.given ONone (Site.tags a))) attribute
    end.
Proof.
  unfold Site.getattr, Site.__init__.
  change (fold_left (fun self kv => Site.setattr self (fst kv) (snd kv))
            (Site.assignments a) ?b)
    with (dict_update String.eqb b (Site.assignments a)).
  apply (dict_get_update _ _ String.eqb String.eqb_sym string_eqb_trans).
Qed.

(** X12.  Every statement [self.<attribute> = <value>] of [Site.__init__]
    shows in the new instance: no attribute is assigned twice, so each has
    the value its statement gives it -- the argument passed, the default
    of the parameter ([False] for [reserved] and [scm_site_also_stopped],
    the string [false] for [micro_service], [None] for the others), or
    [None]. *)
Theorem site_init_keeps_every_assignment :
  forall (R : pyobj -> pyobj -> pyobj -> pyobj -> pyobj
              -> list (string * pyobj))
         (a : Site.arguments) (attribute : string) (value : pyobj),
    In (attribute, value) (Site.assignments a) ->
    Site.getattr (Site.__init__ R a) attribute = Some value.
Proof.
  intros R a attribute value Hin. rewrite site_getattr_init.
  unfold Site.assignments in Hin. cbn [In] in Hin.
  repeat (destruct Hin as [Hin | Hin];
          [injection Hin as <- <-; reflexivity |]).
  contradiction.
Qed.

Lemma site_init_keeps_every_assignment_witness :
  Site.getattr (Site.__init__ StoragesSample.sample_resource_init
                  StoragesSample.sample_site_arguments) "reserved"
  = Some (OBool true)
  /\ Site.getattr (Site.__init__ StoragesSample.sample_resource_init
                     StoragesSample.sample_site_arguments) "micro_service"
     = Some (OStr "false").
Proof.
  split.
  - apply (site_init_keeps_every_assignment
             StoragesSample.sample_resource_init
             StoragesSample.sample_site_arguments "reserved" (OBool true)).
    cbn. tauto.
  - apply (site_init_keeps_every_assignment
             StoragesSample.sample_resource_init
             StoragesSample.sample_site_arguments "micro_service"
             (OStr "false")).
    cbn. tauto.
Defined.

(** X13.  Whatever arguments the constructor gets, every attribute that
    [_validation] marks read-only, [id] apart (the base constructor's), is
    [None] in the new [Site]. *)
Theorem site_readonly_attributes_start_as_none :
  forall (R : pyobj -> pyobj -> pyobj -> pyobj -> pyobj
              -> list (string * pyobj))
         (a : Site.arguments) (attribute : string),
    Site.readonly attribute = true ->
    attribute <> "id" ->
    Site.getattr (Site.__init__ R a) attribute = Some ONone.
Proof.
  intros R a attribute Hro Hid. rewrite site_getattr_init.
  unfold Site.readonly, Site._validation in Hro. cbn [dict_get] in Hro.
  repeat match type of Hro with
         | context [String.eqb attribute ?s] =>
             destruct (String.eqb_spec attribute s) as [E | E];
             [subst attribute;
              first [ solve [exfalso; apply Hid; reflexivity]
                    | solve [cbn in Hro; discriminate Hro]
                    | reflexivity ] | clear E]
         end.
  cbn in Hro. discriminate Hro.
Qed.

Lemma site_readonly_attributes_start_as_none_witness :
  Site.readonly "outbound_ip_addresses" = true
  /\ Site.getattr (Site.__init__ StoragesSample.sample_resource_init
                     StoragesSample.sample_site_arguments)
       "outbound_ip_addresses"
     = Some ONone.
Proof.
  split; [reflexivity |].
  apply (site_readonly_attributes_start_as_none
           StoragesSample.sample_resource_init
           StoragesSample.sample_site_arguments "outbound_ip_addresses").
  - reflexivity.
  - discriminate.
Defined.

(** X14.  [Site.__init__] touches its own attributes only: every other
    attribute of the new instance is as the base constructor, called with
    [name], [kind], [location], [type] and [tags], left it. *)
Theorem site_init_leaves_base_attributes :
  forall (R : pyobj -> pyobj -> pyobj -> pyobj -> pyobj
              -> list (string * pyobj))
         (a : Site.arguments) (attribute : string),
    existsb (String.eqb attribute) Site.own_attributes = false ->
    Site.getattr (Site.__init__ R a) attribute
    = Site.getattr
        (R (Site.given ONone (Site.name a)) (Site.given ONone (Site.kind a))
           (Site.location a) (Site.given ONone (Site.type a))
           (Site.given ONone (Site.tags a))) attribute.
Proof.
  intros R a attribute H. rewrite site_getattr_init.
  unfold Site.own_attributes, Site.assignments in H.
  cbn [map fst existsb] in H.
  repeat (apply orb_false_elim in H; destruct H as [? H]).
  unfold Site.assignments. cbn [rev app dict_get].
  repeat match goal with
         | E : String.eqb attribute _ = false |- _ => rewrite E; clear E
         end.
  reflexivity.
Qed.

Lemma site_init_leaves_base_attributes_witness :
  Site.getattr (Site.__init__ StoragesSample.sample_resource_init
                  StoragesSample.sample_site_arguments) "location"
  = Some (OStr "westeurope").
Proof.
  rewrite (site_init_leaves_base_attributes
             StoragesSample.sample_resource_init
             StoragesSample.sample_site_arguments "location" eq_refl).
  reflexivity.
Defined.

(** X15.  The attributes [Site.__init__] assigns are exactly those that
    [_attribute_map] puts under [properties.] on the wire; the attributes
    with a top-level key ([id], [name], [kind], [location], [type],
    [tags]) are left to the base class. *)
Theorem site_own_attributes_are_the_properties :
  forall attribute : string,
    existsb (String.eqb attribute) Site.own_attributes
    = match dict_get String.eqb attribute Site._attribute_map with
      | Some (key, _) => String.prefix "properties." key
      | None => false
      end.
Proof.
  intros attribute.
  unfold Site.own_attributes, Site.assignments, Site._attribute_map.
  cbn [map fst existsb dict_get].
  repeat match goal with
         | |- context [String.eqb attribute ?s] =>
             destruct (String.eqb_spec attribute s) as [E | E];
             [subst attribute; reflexivity | clear E]
         end.
  reflexivity.
Qed.

(* ================================================================== *)
(** * More on the response and the iteration helper *)
(* ================================================================== *)

Lemma prefix_iff_append (p s : string) :
  String.prefix p s = true <-> exists rest, s = (p ++ rest)%string.
Proof.
  revert s. induction p as [| c p IH]; intros s.
  - split; [| reflexivity || (intros _; destruct s; reflexivity)].
    intros _. exists s. reflexivity.
  - destruct s as [| c' s].
    + split; [discriminate |]. intros [rest H]. discriminate H.
    + cbn [String.prefix String.append].
      destruct (Ascii.ascii_dec c c') as [-> | Hne].
      * rewrite IH. split.
        -- intros [rest ->]. exists rest. reflexivity.
        -- intros [rest H]. injection H as ->. exists rest. reflexivity.
      * split; [discriminate |].
        intros [rest H]. injection H as -> _. congruence.
Qed.

(** X16.  [parts()] goes through exactly for the content types that are
    [multipart/mixed] followed by anything: the test is on the leading
    characters as they are written, so another letter case or a leading
    blank is refused, and a longer subtype such as [multipart/mixedup]
    passes. *)
Theorem parts_accepts_exactly_the_prefix :
  forall (r : Response) (w : world),
    is_raised (fst (AsyncHttpResponse.parts r w)) = false
    <-> exists rest : string,
          content_type r = Some ("multipart/mixed" ++ rest)%string.
Proof.
  intros r w. unfold AsyncHttpResponse.parts.
  destruct (content_type r) as [ct |].
  - rewrite parts_guard by discriminate.
    destruct (String.prefix "multipart/mixed" ct) eqn:Hp; cbn [negb].
    + split; [| reflexivity]. intros _.
      apply prefix_iff_append in Hp. destruct Hp as [rest ->].
      exists rest. reflexivity.
    + split; [discriminate |]. intros [rest H]. injection H as H.
      assert (Ht : String.prefix "multipart/mixed" ct = true)
        by (apply prefix_iff_append; exists rest; exact H).
      congruence.
  - cbn. split; [discriminate |]. intros [rest H]. discriminate H.
Qed.

(** What the test lets through and what it refuses. *)
Example parts_prefix_cases :
  forall (r : Response) (w : world),
    (content_type r = Some "multipart/mixedup" ->
     is_raised (fst (AsyncHttpResponse.parts r w)) = false)
    /\ (content_type r = Some "Multipart/Mixed; boundary=B" ->
        is_raised (fst (AsyncHttpResponse.parts r w)) = true)
    /\ (content_type r = Some " multipart/mixed; boundary=B" ->
        is_raised (fst (AsyncHttpResponse.parts r w)) = true).
Proof.
  intros r w. unfold AsyncHttpResponse.parts.
  repeat split; intros ->; reflexivity.
Qed.

Lemma iterate_response_content_helper_never_stop (A S : Type)
    (it : iterator A S) (s : S) (w : world) :
  match fst (_iterate_response_content it s w) with
  | Returned _ => True
  | Raised e => issubclass (exc_cls e) StopIteration = false
  end.
Proof.
  unfold _iterate_response_content, try_except.
  destruct (next it s w) as [[x | e] w']; cbn; [exact I |].
  destruct (issubclass (exc_cls e) StopIteration) eqn:E; cbn;
    [reflexivity | exact E].
Qed.

(** X17.  Guarding an iterator twice is the same as guarding it once: what
    [_iterate_response_content] raises at the end of the iteration is not a
    [StopIteration], so a second pass through the helper hands on every
    item and every exception of the first unchanged. *)
Theorem guarded_twice_is_guarded_once :
  forall (A S : Type) (it : iterator A S) (s : S) (w : world),
    next (guarded (guarded it)) s w = next (guarded it) s w.
Proof.
  intros A S it s w.
  unfold guarded, next. cbn [__next__].
  unfold _iterate_response_content at 1, try_except, next. cbn [__next__].
  pose proof (iterate_response_content_helper_never_stop A S it s w) as Hn.
  destruct (_iterate_response_content it s w) as [[x | e] w'];
    [reflexivity |].
  cbn in Hn. rewrite Hn. reflexivity.
Qed.
